(** * Ark Engine: project state / ledger consistency engine

    A shallow embedding of the state handlers of the Ark Engine command
    center (the [App] component with the project ledger) and of its
    SignalCrypt batch fetch, together with the properties of the
    lifecycle rules: the single-Building constraint, the confidence gate,
    the derived execution lock, the import validation and the approval
    normalisation of fetched batches. Beyond these, the file covers the
    merges of the first load and of an import, the export, the task and
    milestone handlers, the batch decisions and the server endpoints.

    Conventions of the embedding:
    - a React state cell is a field of [AppState]; a handler is a function
      from the state of the render it closes over to the next state,
      paired with the [alert] it raised (if any);
    - [new Date().toISOString()] is an explicit argument [now];
    - a JS object used as a dictionary is an insertion-ordered list of
      entries with unique keys ([JsObject]); project ids are ordinary
      (non integer-like) string keys, so [Object.entries] enumerates them
      in insertion order;
    - a JS number holding a confidence score is an integer ([Z]). *)

From Stdlib Require Import List String Ascii ZArith Lia Bool DecimalString.
From Stdlib Require Import Sorted.
Import ListNotations.
Open Scope string_scope.

(* ================================================================= *)
(** ** JS objects as insertion-ordered dictionaries *)

Module JsObject.
Section Dict.
Context {V : Type}.

Definition t := list (string * V).

(** [o[k]]: [None] stands for [undefined]. *)
Fixpoint get (o : t) (k : string) : option V :=
match o with
| [] => None
| (k', v) :: rest => if String.eqb k k' then Some v else get rest k
end.

(** [{ ...o, [k]: v }]: an existing key keeps its position, a new key
  goes last. *)
Fixpoint set (o : t) (k : string) (v : V) : t :=
match o with
| [] => [(k, v)]
| (k', v') :: rest =>
    if String.eqb k k' then (k', v) :: rest else (k', v') :: set rest k v
end.

Definition entries (o : t) : list (string * V) := o.

Definition keys (o : t) : list string := map fst o.

(** What every JS object satisfies: no key occurs twice. *)
Definition wf (o : t) : Prop := NoDup (keys o).

End Dict.
Arguments t : clear implicits.
End JsObject.

(* ================================================================= *)
(** ** Types *)

Inductive Energy := low | medium | high.

Inductive ProjectStateStatus :=
  Planning | Building | Shipping | Maintenance | Paused.

Inductive ProjectCategory := Sacred | Commercial.

Inductive WorkMode := dev | sales | content.

Record Project := {
  id : string;
  name : string;
  goal : string;
  category : ProjectCategory;
}.

Record ProjectState := {
  stage : ProjectStateStatus;
  blockers : string;
  nextCheckpoint : string;
}.

Record ProjectLedger := {
  mission : string;
  oneSentenceGoal : string;
  currentReality : string;
  whatIsDone : string;
  whatIsWorking : string;
  whatIsBroken : string;
  whatIsMissing : string;
  assets : string;
  constraints : string;
  nextFocus : string;
  killCriteria : string;
  automationStatus : string;
  confidenceScore : option Z;
  lastUpdated : string;
}.

Definition ProjectStateStatus_eqb (a b : ProjectStateStatus) : bool :=
  match a, b with
  | Planning, Planning | Building, Building | Shipping, Shipping
  | Maintenance, Maintenance | Paused, Paused => true
  | _, _ => false
  end.

(** Values that reach the app unchecked (parsed JSON). *)
#[warnings="-register-all"]
Inductive json :=
| JNull
| JBool (b : bool)
| JNum (n : Z)
| JStr (s : string)
| JArr (items : list json)
| JObj (fields : list (string * json)).

(* ================================================================= *)
(** ** Seed data *)

Definition DEFAULT_PROJECTS : list Project := [
  {| id := "ark-engine"; name := "Ark Engine (Core)";
     goal := "The command center that tracks truth, progress, and decisions.";
     category := Commercial |};
  {| id := "amanuel-travel"; name := "ATA - Amanuel Travel Agency";
     goal := "Travel website and booking system for Eritrean/diaspora travelers.";
     category := Commercial |};
  {| id := "signalcrypt"; name := "SignalCrypt";
     goal := "B2B security / trust audit offer with approval-gated outbound systems.";
     category := Commercial |};
  {| id := "strong-still"; name := "Strong & Still";
     goal := "Ministry, devotionals, books, spiritual writing, and faith-based rebuilding.";
     category := Sacred |};
  {| id := "luxury-pet"; name := "Luxury Pet Business";
     goal := "High-end pet adventures and services.";
     category := Commercial |};
  {| id := "surplus"; name := "Surplus Data / Surplus Properties";
     goal := "Identify surplus or public assets and match buyers intelligently.";
     category := Commercial |};
  {| id := "cik-workforce"; name := "CIK Workforce System";
     goal := "Workforce management and automation for construction/field teams.";
     category := Commercial |};
  {| id := "ndc-iata"; name := "NDC / IATA Airline System";
     goal := "Research and future platform for modern airline distribution and APIs.";
     category := Commercial |};
  {| id := "rebuild-nation"; name := "Rebuild Nation";
     goal := "Umbrella identity and long-term legacy mission.";
     category := Sacred |};
  {| id := "automation-workflows"; name := "Automation Workflows & Agents";
     goal := "Supporting systems that reduce manual effort across projects.";
     category := Commercial |}
].

Definition defaultState : ProjectState :=
  {| stage := Planning; blockers := ""; nextCheckpoint := "" |}.

Definition createDefaultProjectState : JsObject.t ProjectState :=
  fold_left (fun acc project => JsObject.set acc (id project) defaultState)
            DEFAULT_PROJECTS [].

Definition blankLedger (g : string) : ProjectLedger :=
  {| mission := ""; oneSentenceGoal := g; currentReality := "";
     whatIsDone := ""; whatIsWorking := ""; whatIsBroken := "";
     whatIsMissing := ""; assets := ""; constraints := ""; nextFocus := "";
     killCriteria := ""; automationStatus := ""; confidenceScore := None;
     lastUpdated := "" |}.

Definition createDefaultProjectLedger : JsObject.t ProjectLedger :=
  fold_left (fun acc project =>
               JsObject.set acc (id project) (blankLedger (goal project)))
            DEFAULT_PROJECTS [].

(* ================================================================= *)
(** ** SignalCrypt weekly batch *)

Record Target := {
  t_name : string;
  t_website : string;
  t_whySelected : string;
  t_channel : string;
  t_email : string;
  t_dmHandle : string;
  t_notes : string;
}.

Record EmailPlan := {
  subjectA : string;
  body1 : string;
  body2 : string;
  followUpDelayDays : Z;
}.

Record DmPlan := {
  message : string;
  maxTargets : Z;
  eligibilityRule : string;
}.

Record ExecutionPlan := {
  schedule : list (string * string);   (* day, action *)
  stopConditions : list string;
}.

(** Every field of a batch but [approval]. *)
Record BatchContent := {
  batchId : string;
  preparedAt : string;
  limits : Z * Z;                      (* email, dm *)
  discoveryRule : string;
  offer : string * string;             (* name, price *)
  angle : string;
  targets : list Target;
  email : EmailPlan;
  dm : DmPlan;
  executionPlan : ExecutionPlan;
  risks : list string;
  safeguards : list string;
}.

Record Approval := {
  status : string;
  approvedBy : string;
  approvedAt : string;
}.

Record SignalCryptBatch := {
  batch : BatchContent;
  approval : Approval;
}.

(** The body of a server response before the client has looked at it:
    [approval] may be absent (or [null]), and so may its [status]. *)
Record ResponseApproval := {
  r_status : option string;
  r_approvedBy : string;
  r_approvedAt : string;
}.

Record ResponseBatch := {
  r_batch : BatchContent;
  r_approval : option ResponseApproval;
}.

(* ================================================================= *)
(** ** Application state *)

Record AppState := {
  projects : list Project;
  selectedProjectId : string;
  energy : Energy;
  tasks : list json;
  logs : list json;
  workMode : WorkMode;
  workModeOutputs : json;
  projectState : JsObject.t ProjectState;
  projectLedger : JsObject.t ProjectLedger;
  milestones : list json;
  scBatch : option SignalCryptBatch;
  scOutreachSpec : string;
  scLoading : bool;
  scError : option string;
  (** [localStorage[SC_BATCH_KEY]], before [JSON.stringify] *)
  storedBatch : option SignalCryptBatch;
}.

Definition setSelectedProjectId (st : AppState) (p : string) : AppState :=
  {| projects := projects st; selectedProjectId := p; energy := energy st;
     tasks := tasks st; logs := logs st; workMode := workMode st;
     workModeOutputs := workModeOutputs st; projectState := projectState st;
     projectLedger := projectLedger st; milestones := milestones st;
     scBatch := scBatch st; scOutreachSpec := scOutreachSpec st;
     scLoading := scLoading st; scError := scError st;
     storedBatch := storedBatch st |}.

Definition setProjectState (st : AppState) (ps : JsObject.t ProjectState)
  : AppState :=
  {| projects := projects st; selectedProjectId := selectedProjectId st;
     energy := energy st; tasks := tasks st; logs := logs st;
     workMode := workMode st; workModeOutputs := workModeOutputs st;
     projectState := ps;
     projectLedger := projectLedger st; milestones := milestones st;
     scBatch := scBatch st; scOutreachSpec := scOutreachSpec st;
     scLoading := scLoading st; scError := scError st;
     storedBatch := storedBatch st |}.

Definition setProjectLedger (st : AppState) (pl : JsObject.t ProjectLedger)
  : AppState :=
  {| projects := projects st; selectedProjectId := selectedProjectId st;
     energy := energy st; tasks := tasks st; logs := logs st;
     workMode := workMode st; workModeOutputs := workModeOutputs st;
     projectState := projectState st;
     projectLedger := pl; milestones := milestones st;
     scBatch := scBatch st; scOutreachSpec := scOutreachSpec st;
     scLoading := scLoading st; scError := scError st;
     storedBatch := storedBatch st |}.

(* ================================================================= *)
(** ** Values derived at each render *)

Section Render.
Variable st : AppState.

Definition currentProjectState : ProjectState :=
  match JsObject.get (projectState st) (selectedProjectId st) with
  | Some s => s
  | None => defaultState
  end.

Definition currentProject : option Project :=
  find (fun p => String.eqb (id p) (selectedProjectId st)) (projects st).

Definition currentProjectLedger : ProjectLedger :=
  match JsObject.get (projectLedger st) (selectedProjectId st) with
  | Some l => l
  | None =>
      match JsObject.get createDefaultProjectLedger (selectedProjectId st) with
      | Some l => l
      | None =>
          blankLedger (match currentProject with
                       | Some p => goal p
                       | None => ""
                       end)
      end
  end.

Definition currentConfidenceScore : option Z :=
  confidenceScore currentProjectLedger.

Definition isConfidenceUnset : bool :=
  match currentConfidenceScore with None => true | Some _ => false end.

Definition isConfidenceLow : bool :=
  match currentConfidenceScore with
  | None => false
  | Some c => (c <? 3)%Z
  end.

Definition isProjectPaused : bool :=
  ProjectStateStatus_eqb (stage currentProjectState) Paused.

Definition buildingProjectIds : list string :=
  map fst
      (filter (fun e => ProjectStateStatus_eqb (stage (snd e)) Building)
              (JsObject.entries (projectState st))).

Definition buildingProjectNames : list string :=
  map (fun projectId =>
         match find (fun project => String.eqb (id project) projectId)
                    (projects st) with
         | Some project =>
             if String.eqb (name project) "" then projectId else name project
         | None => projectId
         end)
      buildingProjectIds.

Definition hasBuildingConflict : bool :=
  (1 <? List.length buildingProjectIds)%nat.

Definition isExecutionBlocked : bool :=
  hasBuildingConflict || isConfidenceLow || isConfidenceUnset.

Definition executionBlockMessages : list string :=
  ((if hasBuildingConflict
    then [("Multiple projects in Building: "
             ++ String.concat ", " buildingProjectNames)%string]
    else [])
   ++ (if isConfidenceUnset
       then ["Confidence score is not set for this project"]
       else if isConfidenceLow
            then ["Confidence score is below 3 for this project"]
            else []))%list.

Definition includes (l : list string) (x : string) : bool :=
  existsb (String.eqb x) l.

Definition canEnterBuilding : bool :=
  negb isConfidenceLow && negb isConfidenceUnset
  && ((List.length buildingProjectIds =? 0)%nat
      || includes buildingProjectIds (selectedProjectId st)).

Definition canEnterShipping : bool :=
  negb isConfidenceLow && negb isConfidenceUnset.

End Render.

(* ================================================================= *)
(** ** Project state and ledger handlers *)

(** A call [handleUpdateProjectState(field, value)]: the field of
    [ProjectState] together with a value of its type. *)
Inductive ProjectStateUpdate :=
| set_stage (value : ProjectStateStatus)
| set_blockers (value : string)
| set_nextCheckpoint (value : string).

(** [{ ...s, [field]: value }] *)
Definition assignStateField (s : ProjectState) (u : ProjectStateUpdate)
  : ProjectState :=
  match u with
  | set_stage v =>
      {| stage := v; blockers := blockers s;
         nextCheckpoint := nextCheckpoint s |}
  | set_blockers v =>
      {| stage := stage s; blockers := v;
         nextCheckpoint := nextCheckpoint s |}
  | set_nextCheckpoint v =>
      {| stage := stage s; blockers := blockers s; nextCheckpoint := v |}
  end.

Inductive LedgerTextField :=
| f_mission | f_oneSentenceGoal | f_currentReality | f_whatIsDone
| f_whatIsWorking | f_whatIsBroken | f_whatIsMissing | f_assets
| f_constraints | f_nextFocus | f_killCriteria | f_automationStatus.

(** A call [handleUpdateProjectLedger(field, value)]. *)
Inductive ProjectLedgerUpdate :=
| set_text (field : LedgerTextField) (value : string)
| set_confidenceScore (value : option Z)
| set_lastUpdated (value : string).

Definition withLastUpdated (l : ProjectLedger) (now : string) : ProjectLedger :=
  {| mission := mission l; oneSentenceGoal := oneSentenceGoal l;
     currentReality := currentReality l; whatIsDone := whatIsDone l;
     whatIsWorking := whatIsWorking l; whatIsBroken := whatIsBroken l;
     whatIsMissing := whatIsMissing l; assets := assets l;
     constraints := constraints l; nextFocus := nextFocus l;
     killCriteria := killCriteria l; automationStatus := automationStatus l;
     confidenceScore := confidenceScore l; lastUpdated := now |}.

Definition withConfidenceScore (l : ProjectLedger) (c : option Z)
  : ProjectLedger :=
  {| mission := mission l; oneSentenceGoal := oneSentenceGoal l;
     currentReality := currentReality l; whatIsDone := whatIsDone l;
     whatIsWorking := whatIsWorking l; whatIsBroken := whatIsBroken l;
     whatIsMissing := whatIsMissing l; assets := assets l;
     constraints := constraints l; nextFocus := nextFocus l;
     killCriteria := killCriteria l; automationStatus := automationStatus l;
     confidenceScore := c; lastUpdated := lastUpdated l |}.

Definition withText (l : ProjectLedger) (f : LedgerTextField) (v : string)
  : ProjectLedger :=
  let pick (g : bool) (old : string) := if g then v else old in
  {| mission := pick (match f with f_mission => true | _ => false end) (mission l);
     oneSentenceGoal :=
       pick (match f with f_oneSentenceGoal => true | _ => false end)
            (oneSentenceGoal l);
     currentReality :=
       pick (match f with f_currentReality => true | _ => false end)
            (currentReality l);
     whatIsDone :=
       pick (match f with f_whatIsDone => true | _ => false end) (whatIsDone l);
     whatIsWorking :=
       pick (match f with f_whatIsWorking => true | _ => false end)
            (whatIsWorking l);
     whatIsBroken :=
       pick (match f with f_whatIsBroken => true | _ => false end)
            (whatIsBroken l);
     whatIsMissing :=
       pick (match f with f_whatIsMissing => true | _ => false end)
            (whatIsMissing l);
     assets := pick (match f with f_assets => true | _ => false end) (assets l);
     constraints :=
       pick (match f with f_constraints => true | _ => false end)
            (constraints l);
     nextFocus :=
       pick (match f with f_nextFocus => true | _ => false end) (nextFocus l);
     killCriteria :=
       pick (match f with f_killCriteria => true | _ => false end)
            (killCriteria l);
     automationStatus :=
       pick (match f with f_automationStatus => true | _ => false end)
            (automationStatus l);
     confidenceScore := confidenceScore l; lastUpdated := lastUpdated l |}.

(** [{ ...l, [field]: nextValue }]; on a number [Number(value)] is the
    number itself. *)
Definition assignLedgerField (l : ProjectLedger) (u : ProjectLedgerUpdate)
  : ProjectLedger :=
  match u with
  | set_text f v => withText l f v
  | set_confidenceScore v => withConfidenceScore l v
  | set_lastUpdated v => withLastUpdated l v
  end.

(** What a handler leaves behind: the next state and the alert shown. *)
Definition Outcome : Type := AppState * option string.

Definition ALERT_CONFIDENCE : string :=
  "Confidence must be 3+ to move into Building or Shipping.".

Definition ALERT_BUILDING : string :=
  "Only one project can be in Building. Resolve the conflict first.".

Section Handlers.
(** The state of the render whose closures the handlers are. *)
Variable st : AppState.

Definition baseLedger : ProjectLedger :=
  match JsObject.get (projectLedger st) (selectedProjectId st) with
  | Some l => l
  | None => currentProjectLedger st
  end.

(** [touchLedgerUpdate()], applied to the state the earlier setters of
    the same handler have produced. *)
Definition touchLedgerUpdate (now : string) (pending : AppState) : AppState :=
  setProjectLedger pending
    (JsObject.set (projectLedger st) (selectedProjectId st)
                  (withLastUpdated baseLedger now)).

Definition handleUpdateProjectState (u : ProjectStateUpdate) (now : string)
  : Outcome :=
  let accept :=
    (touchLedgerUpdate now
       (setProjectState st
          (JsObject.set (projectState st) (selectedProjectId st)
                        (assignStateField (currentProjectState st) u))),
     None) in
  match u with
  | set_stage nextStage =>
      if (ProjectStateStatus_eqb nextStage Building
          || ProjectStateStatus_eqb nextStage Shipping)
         && (isConfidenceLow st || isConfidenceUnset st)
      then (st, Some ALERT_CONFIDENCE)
      else
        if ProjectStateStatus_eqb nextStage Building
        then
          let otherBuilding :=
            filter (fun projectId =>
                      negb (String.eqb projectId (selectedProjectId st)))
                   (buildingProjectIds st) in
          if (0 <? List.length otherBuilding)%nat
          then (st, Some ALERT_BUILDING)
          else accept
        else accept
  | _ => accept
  end.

Definition handleUpdateProjectLedger (u : ProjectLedgerUpdate) (now : string)
  : Outcome :=
  (setProjectLedger st
     (JsObject.set (projectLedger st) (selectedProjectId st)
                   (withLastUpdated (assignLedgerField baseLedger u) now)),
   None).

Definition handleMarkWeeklyUpdate (now : string) : Outcome :=
  (setProjectLedger st
     (JsObject.set (projectLedger st) (selectedProjectId st)
                   (withLastUpdated baseLedger now)),
   None).

End Handlers.

(* ================================================================= *)
(** ** Import *)

(** The parsed import document, typed as the cast [as ExportData] has it.
    [tasks] and [logs], which the handler validates itself, are the raw
    JSON values; an absent (or [null]) property is [None]. *)
Record ExportData := {
  x_exportedAt : option string;
  x_selectedProjectId : option string;
  x_energy : option Energy;
  x_projects : option (list Project);
  x_tasks : option json;
  x_logs : option json;
  x_workMode : option WorkMode;
  x_workModeOutputs : option json;
  x_projectState : option (JsObject.t ProjectState);
  x_milestones : option (list json);
  x_projectLedger : option (JsObject.t ProjectLedger);
  x_outreachAgentSpec : option string;
  x_projectStatuses : option (JsObject.t ProjectStateStatus);
}.

(** What [JSON.parse] makes of the file. *)
Inductive ParseResult :=
| ParseThrows                     (* not JSON *)
| ParsedNull                      (* the document [null] *)
| ParsedOther                     (* a number, string, boolean or array *)
| ParsedObject (data : ExportData).

Definition truthy (v : json) : bool :=
  match v with
  | JNull => false
  | JBool b => b
  | JNum n => negb (n =? 0)%Z
  | JStr s => negb (String.eqb s "")
  | JArr _ | JObj _ => true
  end.

Definition isArray (v : json) : bool :=
  match v with JArr _ => true | _ => false end.

(** [!x || !Array.isArray(x)] *)
Definition notAnArray (x : option json) : bool :=
  match x with
  | None => true
  | Some v => negb (truthy v) || negb (isArray v)
  end.

Definition arrayItems (x : option json) : list json :=
  match x with Some (JArr items) => items | _ => [] end.

(** [a || b] on strings *)
Definition orElse (a b : string) : string :=
  if String.eqb a "" then b else a.

Definition mergeProjects (storedProjects : list Project) : list Project :=
  let merged :=
    map (fun project =>
           match find (fun d => String.eqb (id d) (id project))
                      DEFAULT_PROJECTS with
           | None => project
           | Some defaults =>
               {| id := id project;
                  name := orElse (name project) (name defaults);
                  goal := orElse (goal project) (goal defaults);
                  category := category project |}
           end)
        storedProjects in
  fold_left (fun merged project =>
               if existsb (fun existing => String.eqb (id existing) (id project))
                          merged
               then merged
               else (merged ++ [project])%list)
            DEFAULT_PROJECTS merged.

Definition withStage (s : ProjectState) (v : ProjectStateStatus) : ProjectState :=
  {| stage := v; blockers := blockers s; nextCheckpoint := nextCheckpoint s |}.

Definition withOneSentenceGoal (l : ProjectLedger) (g : string) : ProjectLedger :=
  withText l f_oneSentenceGoal g.

Definition ALERT_TASKS : string :=
  "Invalid import file: missing or invalid tasks array".
Definition ALERT_LOGS : string :=
  "Invalid import file: missing or invalid logs array".
Definition ALERT_IMPORTED : string := "Data imported successfully!".
Definition ALERT_PARSE : string :=
  "Failed to parse import file. Please check the file format.".

(** The [projectState] branch: imported entries laid over the defaults
    (an entry, complete by its type, overrides every field of the default
    entry it is spread over). *)
Definition importProjectState (imported : JsObject.t ProjectState)
  : JsObject.t ProjectState :=
  fold_left (fun mergedState e => JsObject.set mergedState (fst e) (snd e))
            (JsObject.entries imported) createDefaultProjectState.

(** The legacy [projectStatuses] branch: only known projects are touched. *)
Definition importProjectStatuses (imported : JsObject.t ProjectStateStatus)
  : JsObject.t ProjectState :=
  fold_left (fun defaults e =>
               match JsObject.get defaults (fst e) with
               | Some s => JsObject.set defaults (fst e) (withStage s (snd e))
               | None => defaults
               end)
            (JsObject.entries imported) createDefaultProjectState.

Definition importProjectLedger (imported : JsObject.t ProjectLedger)
  : JsObject.t ProjectLedger :=
  fold_left (fun mergedLedger e =>
               JsObject.set mergedLedger (fst e)
                 (withOneSentenceGoal (snd e)
                    (orElse (oneSentenceGoal (snd e))
                       (match JsObject.get mergedLedger (fst e) with
                        | Some d => oneSentenceGoal d
                        | None => ""
                        end))))
            (JsObject.entries imported) createDefaultProjectLedger.

Definition pickSome {A : Type} (x : option A) (old : A) : A :=
  match x with Some v => v | None => old end.

Definition pickNonEmpty (x : option string) (old : string) : string :=
  match x with
  | Some v => if String.eqb v "" then old else v
  | None => old
  end.

(** The body of [reader.onload] in [handleImport]. *)
Definition handleImport (st : AppState) (parsed : ParseResult) : Outcome :=
  match parsed with
  | ParseThrows => (st, Some ALERT_PARSE)
  | ParsedNull => (st, Some ALERT_PARSE)       (* [data.tasks] throws *)
  | ParsedOther => (st, Some ALERT_TASKS)      (* [data.tasks] is undefined *)
  | ParsedObject data =>
      if notAnArray (x_tasks data) then (st, Some ALERT_TASKS)
      else if notAnArray (x_logs data) then (st, Some ALERT_LOGS)
      else
        ({| energy := pickSome (x_energy data) (energy st);
            selectedProjectId :=
              pickNonEmpty (x_selectedProjectId data) (selectedProjectId st);
            tasks := arrayItems (x_tasks data);
            logs := arrayItems (x_logs data);
            projects :=
              match x_projects data with
              | Some ps => mergeProjects ps
              | None => projects st
              end;
            workMode := pickSome (x_workMode data) (workMode st);
            workModeOutputs :=
              match x_workModeOutputs data with
              | Some v => if truthy v then v else workModeOutputs st
              | None => workModeOutputs st
              end;
            projectState :=
              match x_projectState data, x_projectStatuses data with
              | Some imported, _ => importProjectState imported
              | None, Some statuses => importProjectStatuses statuses
              | None, None => projectState st
              end;
            milestones := pickSome (x_milestones data) (milestones st);
            projectLedger :=
              match x_projectLedger data with
              | Some imported => importProjectLedger imported
              | None => projectLedger st
              end;
            scOutreachSpec :=
              pickNonEmpty (x_outreachAgentSpec data) (scOutreachSpec st);
            scBatch := scBatch st; scLoading := scLoading st;
            scError := scError st; storedBatch := storedBatch st |},
         Some ALERT_IMPORTED)
  end.

(* ================================================================= *)
(** ** SignalCrypt batch fetch *)

Section SignalCryptLock.
Variable st : AppState.

Definition signalCryptLedger : ProjectLedger :=
  match JsObject.get (projectLedger st) "signalcrypt" with
  | Some l => l
  | None =>
      match JsObject.get createDefaultProjectLedger "signalcrypt" with
      | Some l => l
      | None => blankLedger ""
      end
  end.

Definition signalCryptConfidence : option Z :=
  confidenceScore signalCryptLedger.

Definition isSignalCryptPaused : bool :=
  match JsObject.get (projectState st) "signalcrypt" with
  | Some s => ProjectStateStatus_eqb (stage s) Paused
  | None => false
  end.

Definition isSignalCryptLocked : bool :=
  hasBuildingConflict st || isSignalCryptPaused
  || match signalCryptConfidence with
     | None => true
     | Some c => (c <? 3)%Z
     end.

Definition signalCryptLockReason : string :=
  if hasBuildingConflict st then "Resolve the Building conflict first."
  else if isSignalCryptPaused then "SignalCrypt is paused."
  else match signalCryptConfidence with
       | None =>
           "Set a SignalCrypt confidence score before generating batches."
       | Some _ => "SignalCrypt confidence is below 3."
       end.
End SignalCryptLock.

Definition nl : string := String (ascii_of_nat 10) EmptyString.
Definition dq : string := String (ascii_of_nat 34) EmptyString.

Definition string_of_nat (n : nat) : string :=
  NilZero.string_of_uint (Nat.to_uint n).

Definition string_of_Z (z : Z) : string :=
  NilZero.string_of_int (Z.to_int z).

(** [s.split('T')[0]] *)
Fixpoint beforeT (s : string) : string :=
  match s with
  | EmptyString => EmptyString
  | String c rest =>
      if Ascii.eqb c "T"%char then EmptyString else String c (beforeT rest)
  end.

(** [s.includes(sub)] *)
Fixpoint str_includes (s sub : string) : bool :=
  String.prefix sub s
  || match s with
     | EmptyString => false
     | String _ rest => str_includes rest sub
     end.

Definition PENDING_APPROVAL : Approval :=
  {| status := "PENDING"; approvedBy := ""; approvedAt := "" |}.

Definition mockTarget (i : nat) : Target :=
  {| t_name := "Target " ++ string_of_nat (i + 1);
     t_website := "";
     t_whySelected := "Fits: B2B SaaS, North America, ~10–200 employees, makes security/trust/privacy/compliance/uptime claims (needs verification).";
     t_channel := "email";
     t_email := "";
     t_dmHandle := "";
     t_notes := "needs discovery/enrichment" |}.

Definition mockBatch (now : string) : SignalCryptBatch :=
  {| batch :=
       {| batchId := "SC-" ++ beforeT now;
          preparedAt := now;
          limits := (15, 3)%Z;
          discoveryRule := "B2B SaaS companies in North America with 10–200 employees that publicly make security, trust, privacy, compliance, or uptime claims on their website.";
          offer := ("War Room", "$1,000");
          angle := "risk";
          targets := map mockTarget (seq 0 15);
          email :=
            {| subjectA := "Quick question about your trust & security claims";
               body1 :=
                 "Hey {{firstName}}," ++ nl ++ nl
                 ++ "I'm reaching out because {{company}} publicly positions around trust/security/privacy."
                 ++ nl ++ nl
                 ++ "SignalCrypt is a fast " ++ dq ++ "Breach Suite" ++ dq
                 ++ " that spots where trust breaks (messaging + compliance signals + exposure surfaces) and returns a clear fix list."
                 ++ nl ++ nl
                 ++ "If I ran a quick pass and sent you 3 specific findings, would you want them?"
                 ++ nl ++ nl
                 ++ "— {{yourName}}" ++ nl ++ "SignalCrypt";
               body2 :=
                 "Hey {{firstName}}," ++ nl ++ nl
                 ++ "Quick follow-up — do you want the 3 findings pass for {{company}}?"
                 ++ nl
                 ++ "If yes, tell me who should receive it."
                 ++ nl ++ nl
                 ++ "— {{yourName}}";
               followUpDelayDays := 4 |};
          dm :=
            {| message := "Hey {{firstName}} — I emailed you a quick note about a 3-finding trust/security pass for {{company}}. Want me to send it over?";
               maxTargets := 3;
               eligibilityRule := "only after no reply to email sequence OR clearly DM-first" |};
          executionPlan :=
            {| schedule :=
                 [("Day 0", "Send Email #1 to all email targets");
                  ("Day 4", "Send Email #2 only to non-responders")];
               stopConditions :=
                 ["any reply"; "unsubscribe"; "bounce"; "manual pause"] |};
          risks := ["deliverability"; "brand risk"; "rate limits"];
          safeguards := ["low volume"; "honest messaging"; "approval gate"] |};
     approval := PENDING_APPROVAL |}.

(** The approval block the client keeps for a response body: forced to
    PENDING unless the body says APPROVED. *)
Definition normalizeApproval (a : option ResponseApproval) : Approval :=
  match a with
  | None => PENDING_APPROVAL          (* [batch.approval ?? {PENDING}] *)
  | Some a =>
      match r_status a with
      | Some s =>
          if String.eqb s "APPROVED"
          then {| status := s; approvedBy := r_approvedBy a;
                  approvedAt := r_approvedAt a |}
          else PENDING_APPROVAL
      | None => PENDING_APPROVAL
      end
  end.

(** How the request ended. *)
Inductive FetchResult :=
| FetchThrows (message : option string)            (* [fetch] rejected with [e] *)
| FetchResponse (http : Z) (body : string + ResponseBatch).
                    (* status; [res.json()]: error message or the body *)

(** [res.ok] *)
Definition res_ok (http : Z) : bool := (200 <=? http)%Z && (http <=? 299)%Z.

Definition setSc (st : AppState) (b stored : option SignalCryptBatch)
           (loading : bool) (err : option string) : AppState :=
  {| projects := projects st; selectedProjectId := selectedProjectId st;
     energy := energy st; tasks := tasks st; logs := logs st;
     workMode := workMode st; workModeOutputs := workModeOutputs st;
     projectState := projectState st; projectLedger := projectLedger st;
     milestones := milestones st; scOutreachSpec := scOutreachSpec st;
     scBatch := b; storedBatch := stored; scLoading := loading;
     scError := err |}.

(** The [catch] block. *)
Definition fetchCatch (st : AppState) (message : option string) (now : string)
  : AppState :=
  let msg := match message with Some m => m | None => "" end in
  if str_includes msg "404" || str_includes msg "Failed to fetch"
  then setSc st (Some (mockBatch now)) (Some (mockBatch now)) false None
  else setSc st (scBatch st) (storedBatch st) false
             (Some (orElse msg "Failed to fetch batch")).

Definition fetchSignalCryptBatch (st : AppState) (r : FetchResult)
           (now : string) : AppState :=
  if isSignalCryptLocked st
  then setSc st (scBatch st) (storedBatch st) (scLoading st)
             (Some (signalCryptLockReason st))
  else
    match r with
    | FetchThrows message => fetchCatch st message now
    | FetchResponse http body =>
        if negb (res_ok http)
        then
          if (http =? 404)%Z
          then setSc st (Some (mockBatch now)) (Some (mockBatch now)) false None
          else fetchCatch st (Some ("Fetch failed: " ++ string_of_Z http)) now
        else
          match body with
          | inl message => fetchCatch st (Some message) now
          | inr b =>
              let kept := {| batch := r_batch b;
                             approval := normalizeApproval (r_approval b) |} in
              setSc st (Some kept) (Some kept) false None
          end
    end.

(* ================================================================= *)
(** ** Traces of user events *)

(** The events that reach the project state and the ledger, short of an
    import: choosing a project in the selector and the three handlers.
    [requestStageChange(p, s)] of the lifecycle rules is [SelectProject p]
    followed by [UpdateProjectState (set_stage s)]. *)
Inductive Event :=
| SelectProject (p : string)
| UpdateProjectState (u : ProjectStateUpdate) (now : string)
| UpdateProjectLedger (u : ProjectLedgerUpdate) (now : string)
| MarkWeeklyUpdate (now : string).

Definition step (st : AppState) (e : Event) : AppState :=
  match e with
  | SelectProject p => setSelectedProjectId st p
  | UpdateProjectState u now => fst (handleUpdateProjectState st u now)
  | UpdateProjectLedger u now => fst (handleUpdateProjectLedger st u now)
  | MarkWeeklyUpdate now => fst (handleMarkWeeklyUpdate st now)
  end.

Definition run (st : AppState) (es : list Event) : AppState :=
  fold_left step es st.

(** A stage-change request: project, requested stage, time of the call. *)
Definition StageRequest : Type := string * ProjectStateStatus * string.

Definition requestEvents (r : StageRequest) : list Event :=
  let '(p, s, now) := r in
  [SelectProject p; UpdateProjectState (set_stage s) now].

(** The state of a first run: the seed projects, all in Planning, no
    confidence score set, nothing else recorded. *)
Definition seedState : AppState :=
  {| projects := DEFAULT_PROJECTS;
     selectedProjectId := "ark-engine";
     energy := medium; tasks := []; logs := []; workMode := dev;
     workModeOutputs := JObj [];
     projectState := createDefaultProjectState;
     projectLedger := createDefaultProjectLedger;
     milestones := []; scBatch := None; scOutreachSpec := "";
     scLoading := false; scError := None; storedBatch := None |}.

(* ================================================================= *)
(** ** The execution lock as the lifecycle rules word it *)

Inductive LockReason :=
| BuildingConflict (names : list string)
| ConfidenceUnset
| ConfidenceLow.

(** Reasons in the order of the rules: the Building conflict first, then
    the confidence reason. *)
Definition lockReasons (building : list string) (confidence : option Z)
  : list LockReason :=
  ((if (1 <? List.length building)%nat then [BuildingConflict building] else [])
   ++ match confidence with
      | None => [ConfidenceUnset]
      | Some c => if (c <? 3)%Z then [ConfidenceLow] else []
      end)%list.

(** The message the UI shows for a reason. *)
Definition reasonMessage (r : LockReason) : string :=
  match r with
  | BuildingConflict names =>
      "Multiple projects in Building: " ++ String.concat ", " names
  | ConfidenceUnset => "Confidence score is not set for this project"
  | ConfidenceLow => "Confidence score is below 3 for this project"
  end.

(** [ledger[p].confidenceScore ?? null] *)
Definition ledgerConfidence (st : AppState) (p : string) : option Z :=
  match JsObject.get (projectLedger st) p with
  | Some l => confidenceScore l
  | None => None
  end.

(** The name shown for a project id. *)
Definition displayName (st : AppState) (projectId : string) : string :=
  match find (fun project => String.eqb (id project) projectId) (projects st) with
  | Some project => orElse (name project) projectId
  | None => projectId
  end.

(** The stage recorded for a project, if any. *)
Definition stageOf (st : AppState) (p : string) : option ProjectStateStatus :=
  option_map stage (JsObject.get (projectState st) p).

(* ================================================================= *)
(** ** Notions used in the statements *)

Definition inBuilding (e : string * ProjectState) : bool :=
  ProjectStateStatus_eqb (stage (snd e)) Building.

Definition countBuilding (o : JsObject.t ProjectState) : nat :=
  List.length (filter inBuilding o).

(** No project other than [k] is in Building: the guard of the handler. *)
Definition othersBuilding (o : JsObject.t ProjectState) (k : string)
  : list string :=
  filter (fun projectId => negb (String.eqb projectId k))
         (map fst (filter inBuilding o)).

Definition SingleBuilding (st : AppState) : Prop :=
  List.length (buildingProjectIds st) <= 1.

Definition WellFormed (st : AppState) : Prop :=
  JsObject.wf (projectState st).

(** The field holds an array. *)
Definition isArrayField (x : option json) : bool :=
  match x with Some (JArr _) => true | _ => false end.

(** The document is an object with a [tasks] array and a [logs] array. *)
Definition validImportShape (parsed : ParseResult) : bool :=
  match parsed with
  | ParsedObject data =>
      isArrayField (x_tasks data) && isArrayField (x_logs data)
  | _ => false
  end.

Definition isShapeAlert (a : option string) : Prop :=
  a = Some ALERT_TASKS \/ a = Some ALERT_LOGS \/ a = Some ALERT_PARSE.

(** [lastUpdated] of a project's ledger entry, if it has one. *)
Definition ledgerLastUpdated (st : AppState) (p : string) : option string :=
  option_map lastUpdated (JsObject.get (projectLedger st) p).

(** The response body carries an approval with status APPROVED. *)
Definition carriesApproved (b : ResponseBatch) : Prop :=
  exists a, r_approval b = Some a /\ r_status a = Some "APPROVED".

(* ================================================================= *)
(** ** Sample states and documents *)

(** An export in which two projects are in Building, with a confidence
    score for the first one only. *)
Definition conflictImport : ExportData :=
  {| x_exportedAt := Some "2026-01-05T08:00:00.000Z";
     x_selectedProjectId := None; x_energy := None; x_projects := None;
     x_tasks := Some (JArr []); x_logs := Some (JArr []);
     x_workMode := None; x_workModeOutputs := None;
     x_projectState :=
       Some [("signalcrypt",
              {| stage := Building; blockers := ""; nextCheckpoint := "" |});
             ("ark-engine",
              {| stage := Building; blockers := ""; nextCheckpoint := "" |})];
     x_milestones := None;
     x_projectLedger :=
       Some [("signalcrypt", withConfidenceScore (blankLedger "") (Some 4%Z))];
     x_outreachAgentSpec := None; x_projectStatuses := None |}.

Definition conflictState : AppState :=
  fst (handleImport seedState (ParsedObject conflictImport)).

(** Ark Engine has been moved into Building (confidence 4); SignalCrypt,
    still without a confidence score, is selected. *)
Definition arkBuildingState : AppState :=
  run seedState
      [SelectProject "ark-engine";
       UpdateProjectLedger (set_confidenceScore (Some 4%Z)) "2026-01-05T08:00:00.000Z";
       UpdateProjectState (set_stage Building) "2026-01-05T08:01:00.000Z";
       SelectProject "signalcrypt"].

(** SignalCrypt selected, at Planning, with confidence 2. *)
Definition lowConfidenceState : AppState :=
  run seedState
      [SelectProject "signalcrypt";
       UpdateProjectLedger (set_confidenceScore (Some 2%Z)) "2026-01-05T08:00:00.000Z"].

(** SignalCrypt selected, at Planning, confidence not set. *)
Definition unsetConfidenceState : AppState :=
  setSelectedProjectId seedState "signalcrypt".

(** Ark Engine in Building, SignalCrypt selected with confidence 4. *)
Definition rivalState : AppState :=
  run arkBuildingState
      [UpdateProjectLedger (set_confidenceScore (Some 4%Z)) "2026-01-05T08:30:00.000Z"].

(** The document [{tasks: [], logs: "not-an-array"}]. *)
Definition badLogsImport : ExportData :=
  {| x_exportedAt := None; x_selectedProjectId := None; x_energy := None;
     x_projects := None;
     x_tasks := Some (JArr []); x_logs := Some (JStr "not-an-array");
     x_workMode := None; x_workModeOutputs := None; x_projectState := None;
     x_milestones := None; x_projectLedger := None;
     x_outreachAgentSpec := None; x_projectStatuses := None |}.

(** A response whose approval says REJECTED, by some reviewer. *)
Definition rejectedResponse : ResponseBatch :=
  {| r_batch := batch (mockBatch "2026-01-05T08:00:00.000Z");
     r_approval := Some {| r_status := Some "REJECTED";
                           r_approvedBy := "Yonatan";
                           r_approvedAt := "2026-01-04T10:00:00.000Z" |} |}.

(* ================================================================= *)
(** ** Export, and the merges of the first load *)

(** The document [handleExport] hands to [downloadJSON]. *)
Definition handleExport (st : AppState) (now : string) : ExportData :=
  {| x_exportedAt := Some now;
     x_selectedProjectId := Some (selectedProjectId st);
     x_energy := Some (energy st);
     x_projects := Some (projects st);
     x_tasks := Some (JArr (tasks st));
     x_logs := Some (JArr (logs st));
     x_workMode := Some (workMode st);
     x_workModeOutputs := Some (workModeOutputs st);
     x_projectState := Some (projectState st);
     x_milestones := Some (milestones st);
     x_projectLedger := Some (projectLedger st);
     x_outreachAgentSpec := Some (scOutreachSpec st);
     x_projectStatuses := None |}.

(** [finalProjectState] of the mount effect, from the stored project
    state and the legacy statuses. *)
Definition loadProjectState (storedProjectState : JsObject.t ProjectState)
           (legacyStatuses : JsObject.t ProjectStateStatus)
  : JsObject.t ProjectState :=
  if (List.length (JsObject.keys storedProjectState) =? 0)%nat
     && (0 <? List.length (JsObject.keys legacyStatuses))%nat
  then
    fold_left (fun finalProjectState e =>
                 match JsObject.get finalProjectState (fst e) with
                 | Some s =>
                     JsObject.set finalProjectState (fst e)
                                  (withStage s (snd e))
                 | None => finalProjectState
                 end)
              (JsObject.entries legacyStatuses) createDefaultProjectState
  else if (List.length (JsObject.keys storedProjectState) =? 0)%nat
  then createDefaultProjectState                  (* [preloadProjectState()] *)
  else
    fold_left (fun finalProjectState e =>
                 JsObject.set finalProjectState (fst e) (snd e))
              (JsObject.entries storedProjectState) createDefaultProjectState.

(** [finalProjectLedger] of the mount effect. *)
Definition loadProjectLedger (storedProjectLedger : JsObject.t ProjectLedger)
  : JsObject.t ProjectLedger :=
  if (0 <? List.length (JsObject.keys storedProjectLedger))%nat
  then
    fold_left (fun finalProjectLedger e =>
                 JsObject.set finalProjectLedger (fst e)
                   (withOneSentenceGoal (snd e)
                      (orElse (oneSentenceGoal (snd e))
                         (match JsObject.get finalProjectLedger (fst e) with
                          | Some d => oneSentenceGoal d
                          | None => ""
                          end))))
              (JsObject.entries storedProjectLedger) createDefaultProjectLedger
  else createDefaultProjectLedger.

(** [resolvedProjectId] of the mount effect; [DEFAULT_PROJECTS[0].id] is
    the fallback. *)
Definition resolvedProjectId (storedProjects : list Project)
           (settingsProjectId : string) : string :=
  if existsb (fun project => String.eqb (id project) settingsProjectId)
             storedProjects
  then settingsProjectId
  else match DEFAULT_PROJECTS with
       | first :: _ => id first
       | [] => ""
       end.

(* ================================================================= *)
(** ** Approving and rejecting a batch *)

Definition decideBatch (st : AppState) (decision now : string) : AppState :=
  match scBatch st with
  | None => st
  | Some b =>
      let updated := {| batch := batch b;
                        approval := {| status := decision;
                                       approvedBy := "Yonatan";
                                       approvedAt := now |} |} in
      setSc st (Some updated) (Some updated) (scLoading st) (scError st)
  end.

Definition approveSignalCryptBatch (st : AppState) (now : string) : AppState :=
  decideBatch st "APPROVED" now.

Definition rejectSignalCryptBatch (st : AppState) (now : string) : AppState :=
  decideBatch st "REJECTED" now.

(** The SignalCrypt operations of the client. *)
Inductive ScEvent :=
| ScFetch (r : FetchResult) (now : string)
| ScApprove (now : string)
| ScReject (now : string).

Definition scStep (st : AppState) (e : ScEvent) : AppState :=
  match e with
  | ScFetch r now => fetchSignalCryptBatch st r now
  | ScApprove now => approveSignalCryptBatch st now
  | ScReject now => rejectSignalCryptBatch st now
  end.

(* ================================================================= *)
(** ** The server side: batch template and draft endpoints *)

(** [buildTemplateTargets(count)] of the batch endpoint. *)
Definition buildTemplateTargets (count : nat) : list Target :=
  map (fun i =>
         {| t_name := "Target " ++ string_of_nat (i + 1);
            t_website := "";
            t_whySelected := "Fits: B2B SaaS, North America, ~10–200 employees, makes security/trust/privacy/compliance/uptime claims (needs verification).";
            t_channel := "email";
            t_email := "";
            t_dmHandle := "";
            t_notes := "needs discovery/enrichment" |})
      (seq 0 count).

Record HttpRequest := {
  req_method : string;
  req_body : option json;          (* [None]: [undefined] *)
}.

Record HttpResponse := {
  res_status : Z;
  res_json : json;
}.

(** [o.k] for a parsed value: only objects have own properties (and a
    parsed object has each key once). *)
Fixpoint lookupField (fields : list (string * json)) (k : string)
  : option json :=
  match fields with
  | [] => None
  | (k', v) :: rest => if String.eqb k k' then Some v else lookupField rest k
  end.

Definition property (v : json) (k : string) : option json :=
  match v with
  | JObj fields => lookupField fields k
  | _ => None
  end.

(** [req.body ?? {}] *)
Definition bodyOrEmpty (b : option json) : json :=
  match b with
  | None | Some JNull => JObj []
  | Some v => v
  end.

(** [!x] for a possibly absent value *)
Definition falsy (x : option json) : bool :=
  match x with Some v => negb (truthy v) | None => true end.

Definition undefinedAsNull (x : option json) : json :=
  match x with Some v => v | None => JNull end.

Section DraftEndpoint.
(** What tells the three draft handlers apart: the success message and
    the name of the count property. *)
Variables (readyMessage countKey : string).

Definition draftHandler (req : HttpRequest) : HttpResponse :=
  if negb (String.eqb (req_method req) "POST")
  then {| res_status := 405; res_json := JObj [("error", JStr "POST only")] |}
  else
    let body := bodyOrEmpty (req_body req) in
    let batchId := property body "batchId" in
    let emails := property body "emails" in
    if falsy batchId || negb (isArrayField emails)
    then {| res_status := 400;
            res_json := JObj [("error", JStr "Missing batchId or emails[]")] |}
    else {| res_status := 200;
            res_json :=
              JObj [("ok", JBool true);
                    ("mode", JStr "DRY_RUN");
                    ("message", JStr readyMessage);
                    ("batchId", undefinedAsNull batchId);
                    (countKey,
                     JNum (Z.of_nat (List.length (arrayItems emails))))] |}.
End DraftEndpoint.

(** [api/signalcrypt/create-drafts.ts]: sets [res.statusCode], 200 being
    the status of a response left untouched. *)
Definition createDraftsHandler : HttpRequest -> HttpResponse :=
  draftHandler "Draft creation endpoint ready. No emails sent." "draftsPrepared".

(** The variant answering through [res.status(...).json(...)]. *)
Definition createDraftsHandlerV1 : HttpRequest -> HttpResponse :=
  draftHandler "Draft creation endpoint ready. No emails sent." "draftsPrepared".

(** The variant whose answer counts under [count]. *)
Definition createDraftsHandlerV2 : HttpRequest -> HttpResponse :=
  draftHandler "Draft creation not configured yet. Payload accepted." "count".

(* ================================================================= *)
(** ** Tasks and milestones *)

(** The task and milestone cells hold what their types say; the handlers
    below take that typed content beside the render state, which they
    read for the selected project and the pause guard. *)
Record Task := {
  task_id : string;
  task_projectId : string;
  task_text : string;
  completed : bool;
  nextAction : option string;
  task_createdAt : Z;
}.

Record Milestone := {
  milestone_id : string;
  milestone_projectId : string;
  milestone_text : string;
  done : bool;
  milestone_createdAt : Z;
}.

(** [l.sort(compare)]: the stable sort, an element going before another
    exactly when [compare] is negative on them. *)
Fixpoint sortInsert {A : Type} (compare : A -> A -> Z) (x : A) (l : list A)
  : list A :=
  match l with
  | [] => [x]
  | y :: rest =>
      if (compare y x <? 0)%Z then y :: sortInsert compare x rest
      else x :: y :: rest
  end.

Fixpoint sort {A : Type} (compare : A -> A -> Z) (l : list A) : list A :=
  match l with
  | [] => []
  | x :: rest => sortInsert compare x (sort compare rest)
  end.

Definition withCompleted (t : Task) (c : bool) : Task :=
  {| task_id := task_id t; task_projectId := task_projectId t;
     task_text := task_text t; completed := c;
     nextAction := nextAction t; task_createdAt := task_createdAt t |}.

Definition withDone (m : Milestone) (d : bool) : Milestone :=
  {| milestone_id := milestone_id m;
     milestone_projectId := milestone_projectId m;
     milestone_text := milestone_text m; done := d;
     milestone_createdAt := milestone_createdAt m |}.

Section TaskHandlers.
Variable st : AppState.
Variable taskItems : list Task.          (* the [tasks] cell *)
Variable milestoneItems : list Milestone. (* the [milestones] cell *)

Definition currentProjectTasks : list Task :=
  filter (fun t => String.eqb (task_projectId t) (selectedProjectId st))
         taskItems.

Definition openTasks : list Task :=
  sort (fun a b => (task_createdAt b - task_createdAt a)%Z)
       (filter (fun t => negb (completed t)) currentProjectTasks).

Definition top3Tasks : list Task := firstn 3 openTasks.

Definition handleToggleTask (taskId : string) : list Task :=
  if isProjectPaused st then taskItems
  else map (fun t => if String.eqb (task_id t) taskId
                     then withCompleted t (negb (completed t)) else t)
           taskItems.

Definition handleDeleteTask (taskId : string) : list Task :=
  if isProjectPaused st then taskItems
  else filter (fun t => negb (String.eqb (task_id t) taskId)) taskItems.

Definition handleClearCompleted : list Task :=
  if isProjectPaused st then taskItems
  else filter (fun t => negb (String.eqb (task_projectId t)
                                         (selectedProjectId st)
                              && completed t))
              taskItems.

Definition handleFocusMode : list Task :=
  if isProjectPaused st then taskItems
  else
    let tasksToKeep := map task_id top3Tasks in
    filter (fun t =>
              if negb (String.eqb (task_projectId t) (selectedProjectId st))
              then true
              else if negb (completed t) then includes tasksToKeep (task_id t)
                   else false)
           taskItems.

Definition handleToggleMilestone (milestoneId : string) : list Milestone :=
  if isProjectPaused st then milestoneItems
  else map (fun m => if String.eqb (milestone_id m) milestoneId
                     then withDone m (negb (done m)) else m)
           milestoneItems.

Definition handleDeleteMilestone (milestoneId : string) : list Milestone :=
  if isProjectPaused st then milestoneItems
  else filter (fun m => negb (String.eqb (milestone_id m) milestoneId))
              milestoneItems.

End TaskHandlers.

(* ================================================================= *)
(** ** Further sample states *)

(** Ark Engine selected, at Planning, with confidence 4; nothing is in
    Building. *)
Definition readyState : AppState :=
  run seedState
      [SelectProject "ark-engine";
       UpdateProjectLedger (set_confidenceScore (Some 4%Z)) "2026-01-05T08:00:00.000Z"].

(** The one-sentence goal the seed list gives a project id, [""] for an
    id it does not know. *)
Definition defaultGoal (k : string) : string :=
  match JsObject.get createDefaultProjectLedger k with
  | Some d => oneSentenceGoal d
  | None => ""
  end.

(** What the ledger merge of import and first load makes of a stored
    entry. *)
Definition mergedLedgerEntry (k : string) (e : ProjectLedger) : ProjectLedger :=
  withOneSentenceGoal e (orElse (oneSentenceGoal e) (defaultGoal k)).

(** What [mergeProjects] makes of one stored project. *)
Definition mergeOne (project : Project) : Project :=
  match find (fun d => String.eqb (id d) (id project)) DEFAULT_PROJECTS with
  | None => project
  | Some defaults =>
      {| id := id project;
         name := orElse (name project) (name defaults);
         goal := orElse (goal project) (goal defaults);
         category := category project |}
  end.

(** The list has a project with this id. *)
Definition hasProject (l : list Project) (k : string) : bool :=
  existsb (fun p => String.eqb (id p) k) l.

(** Every seed project is in the project list and has a project-state
    entry and a ledger entry. *)
Definition SeedsPresent (st : AppState) : Prop :=
  forall d, In d DEFAULT_PROJECTS ->
    hasProject (projects st) (id d) = true
    /\ JsObject.get (projectState st) (id d) <> None
    /\ JsObject.get (projectLedger st) (id d) <> None.

Definition scRun (st : AppState) (es : list ScEvent) : AppState :=
  fold_left scStep es st.

(** The approval a decision writes. *)
Definition decided (b : SignalCryptBatch) (decision now : string)
  : SignalCryptBatch :=
  {| batch := batch b;
     approval := {| status := decision; approvedBy := "Yonatan";
                    approvedAt := now |} |}.

(** A request the draft endpoints accept: a POST whose body is an object
    with a truthy [batchId] and an [emails] array. *)
Definition acceptedDraft (req : HttpRequest) (batchId : json)
           (emails : list json) : Prop :=
  req_method req = "POST"
  /\ exists fields, req_body req = Some (JObj fields)
                    /\ lookupField fields "batchId" = Some batchId
                    /\ truthy batchId = true
                    /\ lookupField fields "emails" = Some (JArr emails).

(** How a fetch that was not locked out ends: with the batch as it was and
    an error, or with no error and a batch written to the state and to
    storage alike whose approval is pending or carries APPROVED. *)
Inductive FetchEnd (st st' : AppState) : Prop :=
| fetch_failed (e : string) :
    st' = setSc st (scBatch st) (storedBatch st) false (Some e) ->
    FetchEnd st st'
| fetch_stored (kept : SignalCryptBatch) :
    st' = setSc st (Some kept) (Some kept) false None ->
    approval kept = PENDING_APPROVAL \/ status (approval kept) = "APPROVED" ->
    FetchEnd st st'.

(** The approval status of the batch in the state, if any, is one of the
    three the type allows. *)
Definition KnownStatus (st : AppState) : Prop :=
  match scBatch st with
  | None => True
  | Some b => status (approval b) = "PENDING"
              \/ status (approval b) = "APPROVED"
              \/ status (approval b) = "REJECTED"
  end.

(* ================================================================= *)
(** ** Sample tasks *)

Definition sampleTask (k p : string) (c : bool) (at_ : Z) : Task :=
  {| task_id := k; task_projectId := p; task_text := "task " ++ k;
     completed := c; nextAction := None; task_createdAt := at_ |}.

(** Five tasks of Ark Engine, one of them completed, and one of
    SignalCrypt. *)
Definition sampleTasks : list Task :=
  [sampleTask "a" "ark-engine" false 10;
   sampleTask "b" "ark-engine" false 40;
   sampleTask "c" "ark-engine" true 50;
   sampleTask "d" "signalcrypt" false 60;
   sampleTask "e" "ark-engine" false 30;
   sampleTask "f" "ark-engine" false 20].

(** Ark Engine selected and paused. *)
Definition pausedState : AppState :=
  run seedState [SelectProject "ark-engine";
                 UpdateProjectState (set_stage Paused) "2026-01-05T08:00:00.000Z"].

(* ================================================================= *)
(** * Properties *)

(** ** Runs on sample inputs *)

Example seed_all_planning :
  buildingProjectIds seedState = []
  /\ executionBlockMessages seedState
     = ["Confidence score is not set for this project"].
Proof. split; reflexivity. Qed.

Example ark_enters_building :
  buildingProjectIds arkBuildingState = ["ark-engine"]
  /\ ledgerLastUpdated arkBuildingState "ark-engine"
     = Some "2026-01-05T08:01:00.000Z"
  /\ ledgerConfidence arkBuildingState "ark-engine" = Some 4%Z.
Proof. repeat split; reflexivity. Qed.

Example rival_building_refused :
  handleUpdateProjectState rivalState (set_stage Building)
                           "2026-01-05T09:00:00.000Z"
  = (rivalState, Some ALERT_BUILDING)
  /\ snd (handleUpdateProjectState rivalState (set_stage Shipping)
            "2026-01-05T09:00:00.000Z") = None.
Proof. split; reflexivity. Qed.

Example low_confidence_banner :
  executionBlockMessages lowConfidenceState
  = ["Confidence score is below 3 for this project"]
  /\ canEnterBuilding lowConfidenceState = false
  /\ canEnterShipping lowConfidenceState = false.
Proof. repeat split; reflexivity. Qed.

Example conflict_import_applied :
  snd (handleImport seedState (ParsedObject conflictImport))
  = Some ALERT_IMPORTED
  /\ buildingProjectIds conflictState = ["ark-engine"; "signalcrypt"]
  /\ ledgerConfidence conflictState "signalcrypt" = Some 4%Z
  /\ isSignalCryptLocked conflictState = true
  /\ signalCryptLockReason conflictState
     = "Resolve the Building conflict first.".
Proof. repeat split; reflexivity. Qed.

Example fetch_not_found_falls_back :
  scBatch (fetchSignalCryptBatch rivalState (FetchResponse 404 (inl ""))
                                 "2026-01-05T09:00:00.000Z")
  = Some (mockBatch "2026-01-05T09:00:00.000Z")
  /\ batchId (batch (mockBatch "2026-01-05T09:00:00.000Z")) = "SC-2026-01-05".
Proof. split; reflexivity. Qed.

Example fetch_server_error_reported :
  scError (fetchSignalCryptBatch rivalState (FetchResponse 500 (inl ""))
                                 "2026-01-05T09:00:00.000Z")
  = Some "Fetch failed: 500"
  /\ scBatch (fetchSignalCryptBatch rivalState (FetchResponse 500 (inl ""))
                                    "2026-01-05T09:00:00.000Z") = None.
Proof. split; reflexivity. Qed.

Example fetch_locked_without_confidence :
  scError (fetchSignalCryptBatch seedState (FetchResponse 200 (inr rejectedResponse))
                                 "2026-01-05T09:00:00.000Z")
  = Some "Set a SignalCrypt confidence score before generating batches."
  /\ scBatch (fetchSignalCryptBatch seedState
                (FetchResponse 200 (inr rejectedResponse))
                "2026-01-05T09:00:00.000Z") = None.
Proof. split; reflexivity. Qed.

Lemma ProjectStateStatus_eqb_spec a b :
  reflect (a = b) (ProjectStateStatus_eqb a b).
Proof. destruct a, b; simpl; constructor; congruence. Qed.

Lemma ProjectStateStatus_eqb_refl a : ProjectStateStatus_eqb a a = true.
Proof. now destruct a. Qed.

(** ** Dictionary facts *)

Section JsObjectFacts.
Context {V : Type}.
Implicit Types (o : JsObject.t V) (k : string) (v : V).

Lemma get_set_same o k v : JsObject.get (JsObject.set o k v) k = Some v.
Proof.
  induction o as [|[k' v'] rest IH]; simpl.
  - now rewrite String.eqb_refl.
  - destruct (String.eqb_spec k k') as [->|Hne]; simpl.
    + now rewrite String.eqb_refl.
    + destruct (String.eqb_spec k k'); [contradiction | exact IH].
Qed.

Lemma get_set_other o k k' v :
  k <> k' -> JsObject.get (JsObject.set o k v) k' = JsObject.get o k'.
Proof.
  intros Hne. induction o as [|[k0 v0] rest IH]; simpl.
  - destruct (String.eqb_spec k' k); [congruence | reflexivity].
  - destruct (String.eqb_spec k k0) as [->|Hk]; simpl.
    + destruct (String.eqb_spec k' k0); [congruence | reflexivity].
    + now rewrite IH.
Qed.

Lemma get_none_keys o k : JsObject.get o k = None -> ~ In k (JsObject.keys o).
Proof.
  induction o as [|[k' v'] rest IH]; simpl; [tauto|].
  destruct (String.eqb_spec k k') as [->|Hne]; [discriminate|].
  intros Hg [Heq|Hin]; [congruence | now apply IH].
Qed.

Lemma get_some_In o k v : JsObject.get o k = Some v -> In (k, v) o.
Proof.
  induction o as [|[k' v'] rest IH]; simpl; [discriminate|].
  destruct (String.eqb_spec k k') as [->|Hne].
  - intros [= ->]. now left.
  - intros Hg. right. now apply IH.
Qed.

Lemma keys_set o k v :
  JsObject.keys (JsObject.set o k v)
  = if existsb (String.eqb k) (JsObject.keys o)
    then JsObject.keys o
    else (JsObject.keys o ++ [k])%list.
Proof.
  unfold JsObject.keys.
  induction o as [|[k' v'] rest IH]; simpl; [reflexivity|].
  destruct (String.eqb_spec k k') as [->|Hne]; simpl; [reflexivity|].
  rewrite IH.
  now destruct (existsb (String.eqb k) (map fst rest)).
Qed.

Lemma wf_set o k v : JsObject.wf o -> JsObject.wf (JsObject.set o k v).
Proof.
  unfold JsObject.wf. intros Hwf. rewrite keys_set.
  destruct (existsb (String.eqb k) (JsObject.keys o)) eqn:Hex; [exact Hwf|].
  apply NoDup_app; [exact Hwf | repeat constructor; simpl; tauto |].
  intros x Hx [Heq|[]]. subst x.
  assert (existsb (String.eqb k) (JsObject.keys o) = true) as Hyes.
  { apply existsb_exists. exists k. split; [exact Hx | apply String.eqb_refl]. }
  congruence.
Qed.

End JsObjectFacts.

(** ** Counting the projects in Building *)

Lemma buildingProjectIds_count st :
  List.length (buildingProjectIds st) = countBuilding (projectState st).
Proof. unfold buildingProjectIds, countBuilding. now rewrite length_map. Qed.

Lemma othersBuilding_absent o k :
  ~ In k (JsObject.keys o) -> othersBuilding o k = [] -> countBuilding o = 0.
Proof.
  unfold othersBuilding, countBuilding, JsObject.keys.
  induction o as [|[k' v'] rest IH]; simpl; [reflexivity|].
  intros Hnin. destruct (inBuilding (k', v')) eqn:Hb; simpl.
  - destruct (String.eqb_spec k' k) as [->|Hne]; simpl; [tauto | discriminate].
  - intros Hnil. apply IH; [tauto | exact Hnil].
Qed.

Lemma countBuilding_set_building o k v :
  JsObject.wf o -> othersBuilding o k = [] ->
  countBuilding (JsObject.set o k v) <= 1.
Proof.
  unfold JsObject.wf.
  induction o as [|[k' v'] rest IH]; simpl; intros Hwf Hnil.
  - unfold countBuilding. simpl. destruct (inBuilding (k, v)); simpl; lia.
  - inversion Hwf as [|? ? Hnin Hwf']; subst.
    destruct (String.eqb_spec k k') as [->|Hne].
    + assert (countBuilding rest = 0) as Hzero.
      { apply (othersBuilding_absent rest k'); [exact Hnin|].
        revert Hnil. unfold othersBuilding. simpl.
        destruct (inBuilding (k', v')); simpl; [|tauto].
        now rewrite String.eqb_refl. }
      unfold countBuilding in *. simpl.
      destruct (inBuilding (k', v)); simpl; lia.
    + assert (inBuilding (k', v') = false /\ othersBuilding rest k = [])
        as [Hb Hrest].
      { revert Hnil. unfold othersBuilding. simpl.
        destruct (inBuilding (k', v')); simpl; [|tauto].
        destruct (String.eqb_spec k' k); [congruence | discriminate]. }
      specialize (IH Hwf' Hrest).
      unfold countBuilding in *. simpl.
      change (inBuilding (k', v')) with
        (ProjectStateStatus_eqb (stage v') Building) in Hb.
      unfold inBuilding at 1. simpl. rewrite Hb. exact IH.
Qed.

Lemma countBuilding_set_keep o k v :
  (stage v = Building ->
   exists v0, JsObject.get o k = Some v0 /\ stage v0 = Building) ->
  countBuilding (JsObject.set o k v) <= countBuilding o.
Proof.
  unfold countBuilding.
  induction o as [|[k' v'] rest IH]; simpl; intros Hkeep.
  - unfold inBuilding; simpl.
    destruct (ProjectStateStatus_eqb_spec (stage v) Building) as [Hb|Hb];
      simpl; [|lia].
    destruct (Hkeep Hb) as (v0 & Hget & _). discriminate.
  - destruct (String.eqb_spec k k') as [->|Hne]; simpl.
    + unfold inBuilding; simpl.
      destruct (ProjectStateStatus_eqb_spec (stage v) Building) as [Hb|Hb].
      * destruct (Hkeep Hb) as (v0 & [= <-] & Hv0).
        rewrite Hv0. simpl. lia.
      * destruct (ProjectStateStatus_eqb (stage v') Building); simpl; lia.
    + specialize (IH Hkeep).
      destruct (inBuilding (k', v')); simpl; lia.
Qed.

(** ** The single-Building invariant *)

Lemma accepted_projectState st u now :
  projectState
    (touchLedgerUpdate st now
       (setProjectState st
          (JsObject.set (projectState st) (selectedProjectId st)
                        (assignStateField (currentProjectState st) u))))
  = JsObject.set (projectState st) (selectedProjectId st)
                 (assignStateField (currentProjectState st) u).
Proof. reflexivity. Qed.

Lemma accept_keeps_invariant st u now :
  WellFormed st -> SingleBuilding st ->
  (match u with
   | set_stage Building =>
       othersBuilding (projectState st) (selectedProjectId st) = []
   | _ => True
   end) ->
  let st' := touchLedgerUpdate st now
               (setProjectState st
                  (JsObject.set (projectState st) (selectedProjectId st)
                     (assignStateField (currentProjectState st) u))) in
  WellFormed st' /\ SingleBuilding st'.
Proof.
  intros Hwf Hone Hguard st'. subst st'.
  unfold WellFormed, SingleBuilding in *.
  rewrite buildingProjectIds_count in *. rewrite accepted_projectState.
  split; [now apply wf_set|].
  assert (forall v, stage v = stage (currentProjectState st) ->
            countBuilding (JsObject.set (projectState st)
                                        (selectedProjectId st) v) <= 1)
    as Hsame.
  { intros v Hv.
    eapply Nat.le_trans; [apply countBuilding_set_keep | exact Hone].
    rewrite Hv. unfold currentProjectState.
    destruct (JsObject.get (projectState st) (selectedProjectId st))
      as [v0|]; simpl; [eauto | discriminate]. }
  destruct u as [s | v | v]; simpl; try (apply Hsame; reflexivity).
  destruct s; try (eapply Nat.le_trans;
                   [apply countBuilding_set_keep; simpl; discriminate
                   | exact Hone]).
  now apply countBuilding_set_building.
Qed.

Lemma handleUpdateProjectState_invariant st u now :
  WellFormed st -> SingleBuilding st ->
  WellFormed (fst (handleUpdateProjectState st u now))
  /\ SingleBuilding (fst (handleUpdateProjectState st u now)).
Proof.
  intros Hwf Hone.
  pose proof (accept_keeps_invariant st u now Hwf Hone) as Hacc.
  unfold handleUpdateProjectState.
  destruct u as [s | v | v]; try (apply Hacc; exact I).
  destruct ((ProjectStateStatus_eqb s Building
             || ProjectStateStatus_eqb s Shipping)
            && (isConfidenceLow st || isConfidenceUnset st));
    [simpl; tauto|].
  destruct s; simpl ProjectStateStatus_eqb; cbv iota;
    try (apply Hacc; exact I).
  change (filter (fun projectId : string =>
                    negb (String.eqb projectId (selectedProjectId st)))
                 (buildingProjectIds st))
    with (othersBuilding (projectState st) (selectedProjectId st)).
  destruct (othersBuilding (projectState st) (selectedProjectId st)) eqn:Ho;
    simpl; [apply Hacc; reflexivity | tauto].
Qed.

Lemma step_invariant st e :
  WellFormed st -> SingleBuilding st ->
  WellFormed (step st e) /\ SingleBuilding (step st e).
Proof.
  intros Hwf Hone. destruct e as [p | u now | u now | now]; simpl.
  - split; assumption.
  - now apply handleUpdateProjectState_invariant.
  - split; assumption.
  - split; assumption.
Qed.

Lemma run_invariant es : forall st,
  WellFormed st -> SingleBuilding st ->
  WellFormed (run st es) /\ SingleBuilding (run st es).
Proof.
  induction es as [|e es IH]; intros st Hwf Hone; simpl; [tauto|].
  destruct (step_invariant st e Hwf Hone) as [Hwf' Hone'].
  now apply IH.
Qed.

Lemma seedState_wf : WellFormed seedState.
Proof.
  unfold WellFormed, JsObject.wf. simpl.
  repeat (constructor; [simpl; intuition discriminate|]). constructor.
Qed.

(** C1. From a state in which at most one project is in Building, no
    sequence of stage-change requests (nor of any other edit of the project
    state or the ledger, or change of the selected project) leads to a
    state with two projects in Building. *)
Theorem single_building_preserved (st : AppState) :
  WellFormed st -> SingleBuilding st ->
  (forall es : list Event, SingleBuilding (run st es))
  /\ (forall rs : list StageRequest,
        SingleBuilding (run st (flat_map requestEvents rs))).
Proof.
  intros Hwf Hone.
  assert (forall es, SingleBuilding (run st es)) as Hall.
  { intros es. now apply run_invariant. }
  split; [exact Hall | intros rs; apply Hall].
Qed.

Lemma single_building_preserved_witness :
  WellFormed seedState /\ SingleBuilding seedState
  /\ SingleBuilding
    (run seedState
         [SelectProject "signalcrypt";
          UpdateProjectLedger (set_confidenceScore (Some 4%Z)) "t0";
          UpdateProjectState (set_stage Building) "t1";
          SelectProject "ark-engine";
          UpdateProjectLedger (set_confidenceScore (Some 5%Z)) "t2";
          UpdateProjectState (set_stage Building) "t3"]).
Proof.
  assert (SingleBuilding seedState) as Hone
    by (unfold SingleBuilding; simpl; lia).
  split; [exact seedState_wf|]. split; [exact Hone|].
  exact (proj1 (single_building_preserved seedState seedState_wf Hone) _).
Defined.

(** ** The execution lock *)

Lemma default_ledger_unset k l :
  JsObject.get createDefaultProjectLedger k = Some l ->
  confidenceScore l = None.
Proof.
  intros Hget. apply get_some_In in Hget.
  cbv [createDefaultProjectLedger DEFAULT_PROJECTS fold_left JsObject.set
       id goal String.eqb Ascii.eqb Bool.eqb] in Hget.
  simpl in Hget.
  repeat (destruct Hget as [Hget|Hget]; [now inversion Hget|]).
  contradiction.
Qed.

Lemma currentConfidenceScore_ledger st :
  currentConfidenceScore st = ledgerConfidence st (selectedProjectId st).
Proof.
  unfold currentConfidenceScore, currentProjectLedger, ledgerConfidence.
  destruct (JsObject.get (projectLedger st) (selectedProjectId st));
    [reflexivity|].
  destruct (JsObject.get createDefaultProjectLedger (selectedProjectId st))
    eqn:Hd; [now apply default_ledger_unset in Hd | reflexivity].
Qed.

Lemma buildingProjectNames_display st :
  buildingProjectNames st = map (displayName st) (buildingProjectIds st).
Proof. reflexivity. Qed.

Lemma building_listed st q :
  stageOf st q = Some Building -> In q (buildingProjectIds st).
Proof.
  unfold stageOf, buildingProjectIds, JsObject.entries.
  destruct (JsObject.get (projectState st) q) as [s|] eqn:Hget;
    simpl; [|discriminate].
  intros [= Hs]. apply get_some_In in Hget.
  apply in_map_iff. exists (q, s). split; [reflexivity|].
  apply filter_In. split; [exact Hget|]. simpl. now rewrite Hs.
Qed.

(** C2. The messages of the execution lock are the applicable reasons in
    the fixed order: the Building conflict, naming every project in
    Building, first when more than one project is in Building, then the
    confidence reason of the target project (unset when its score is null,
    low when it is below 3); the list is empty exactly when the lock is
    off; and after an import that put two projects in Building the lock is
    on for either of them, with the conflict naming both first. *)
Theorem execution_lock_reasons :
  (forall st : AppState,
     executionBlockMessages st
     = map reasonMessage
           (lockReasons (map (displayName st) (buildingProjectIds st))
                        (ledgerConfidence st (selectedProjectId st)))
     /\ (forall q, stageOf st q = Some Building -> In q (buildingProjectIds st))
     /\ (forall q, In q (buildingProjectIds st) ->
                   exists s, In (q, s) (projectState st) /\ stage s = Building)
     /\ (executionBlockMessages st = [] <-> isExecutionBlocked st = false))
  /\ (let a := setSelectedProjectId conflictState "ark-engine" in
      let b := setSelectedProjectId conflictState "signalcrypt" in
      isExecutionBlocked a = true
      /\ isExecutionBlocked b = true
      /\ executionBlockMessages a
         = map reasonMessage
               [BuildingConflict ["Ark Engine (Core)"; "SignalCrypt"];
                ConfidenceUnset]
      /\ executionBlockMessages b
         = map reasonMessage
               [BuildingConflict ["Ark Engine (Core)"; "SignalCrypt"]]).
Proof.
  split; [|repeat split; reflexivity].
  intros st. split; [|split; [|split]].
  - unfold executionBlockMessages, lockReasons, hasBuildingConflict,
      isConfidenceUnset, isConfidenceLow.
    rewrite currentConfidenceScore_ledger, buildingProjectNames_display.
    rewrite length_map, map_app.
    destruct (1 <? List.length (buildingProjectIds st))%nat;
      destruct (ledgerConfidence st (selectedProjectId st)) as [c|];
      simpl; try reflexivity;
      destruct (c <? 3)%Z; reflexivity.
  - intros q. apply building_listed.
  - intros q Hin. unfold buildingProjectIds, JsObject.entries in Hin.
    apply in_map_iff in Hin. destruct Hin as ([q' s] & Hq & Hin).
    simpl in Hq. subst q'. apply filter_In in Hin. destruct Hin as [Hin Hb].
    exists s. split; [exact Hin|].
    simpl in Hb. now destruct (ProjectStateStatus_eqb_spec (stage s) Building).
  - unfold executionBlockMessages, isExecutionBlocked, isConfidenceUnset,
      isConfidenceLow.
    destruct (hasBuildingConflict st);
      destruct (currentConfidenceScore st) as [c|]; simpl;
      try (split; discriminate);
      destruct (c <? 3)%Z; simpl; split; (discriminate || reflexivity).
Qed.

(** ** Rejected stage changes *)

Lemma confidence_gate st :
  isConfidenceLow st || isConfidenceUnset st = true
  <-> (currentConfidenceScore st = None
       \/ exists c, currentConfidenceScore st = Some c /\ (c < 3)%Z).
Proof.
  unfold isConfidenceLow, isConfidenceUnset.
  destruct (currentConfidenceScore st) as [c|]; simpl.
  - rewrite orb_false_r, Z.ltb_lt. split.
    + intros Hc. right. now exists c.
    + intros [Hn | (c' & [= <-] & Hc)]; [discriminate | exact Hc].
  - split; [now left | reflexivity].
Qed.

Lemma confidence_gate_open st c :
  currentConfidenceScore st = Some c -> (3 <= c)%Z ->
  isConfidenceLow st || isConfidenceUnset st = false.
Proof.
  intros Hc Hge. unfold isConfidenceLow, isConfidenceUnset. rewrite Hc.
  rewrite orb_false_r. now apply Z.ltb_ge.
Qed.

Lemma other_building_blocks st q :
  q <> selectedProjectId st -> stageOf st q = Some Building ->
  (0 <? List.length
          (filter (fun projectId =>
                     negb (String.eqb projectId (selectedProjectId st)))
                  (buildingProjectIds st)))%nat = true.
Proof.
  intros Hne Hq. apply building_listed in Hq.
  assert (In q (filter (fun projectId =>
                          negb (String.eqb projectId (selectedProjectId st)))
                       (buildingProjectIds st))) as Hin.
  { apply filter_In. split; [exact Hq|].
    now destruct (String.eqb_spec q (selectedProjectId st)). }
  destruct (filter _ (buildingProjectIds st)); [contradiction | reflexivity].
Qed.

(** C3, as stated, fails: with Ark Engine in Building, the request to move
    SignalCrypt (no confidence score) into Building is turned down by the
    confidence check, which comes first, and not with the Building
    conflict. *)
Lemma building_conflict_after_confidence :
  ~ (forall (st : AppState) (q now : string),
       q <> selectedProjectId st -> stageOf st q = Some Building ->
       handleUpdateProjectState st (set_stage Building) now
       = (st, Some ALERT_BUILDING)).
Proof.
  intros Hclaim.
  specialize (Hclaim arkBuildingState "ark-engine" "2026-01-05T09:00:00.000Z").
  assert (snd (handleUpdateProjectState arkBuildingState (set_stage Building)
                 "2026-01-05T09:00:00.000Z") = Some ALERT_CONFIDENCE) as Hrun
    by reflexivity.
  rewrite Hclaim in Hrun; [discriminate Hrun | discriminate | reflexivity].
Qed.

(** C3, amended. While another project is in Building, a request to move
    the selected project into Building is rejected and the state is left as
    it was; the reason is the Building conflict when the project's
    confidence score is 3 or more, and the confidence alert when the score
    is null or below 3. *)
Theorem building_request_rejected (st : AppState) (q now : string) :
  q <> selectedProjectId st -> stageOf st q = Some Building ->
  let r := handleUpdateProjectState st (set_stage Building) now in
  fst r = st
  /\ (forall c, currentConfidenceScore st = Some c -> (3 <= c)%Z ->
                snd r = Some ALERT_BUILDING)
  /\ (currentConfidenceScore st = None
      \/ (exists c, currentConfidenceScore st = Some c /\ (c < 3)%Z) ->
      snd r = Some ALERT_CONFIDENCE).
Proof.
  intros Hne Hq r. subst r. unfold handleUpdateProjectState.
  simpl ProjectStateStatus_eqb. cbv iota. rewrite orb_true_l, andb_true_l.
  rewrite (other_building_blocks st q Hne Hq).
  destruct (isConfidenceLow st || isConfidenceUnset st) eqn:Hgate; simpl.
  - split; [reflexivity|]. split; [|reflexivity].
    intros c Hc Hge. rewrite (confidence_gate_open st c Hc Hge) in Hgate.
    discriminate.
  - split; [reflexivity|]. split; [reflexivity|].
    intros Hlow. apply confidence_gate in Hlow. congruence.
Qed.

Lemma building_request_rejected_witness :
  "ark-engine" <> selectedProjectId rivalState
  /\ stageOf rivalState "ark-engine" = Some Building
  /\ fst (handleUpdateProjectState rivalState (set_stage Building)
            "2026-01-05T09:00:00.000Z") = rivalState.
Proof.
  assert ("ark-engine" <> selectedProjectId rivalState) as Hne
    by (vm_compute; discriminate).
  assert (stageOf rivalState "ark-engine" = Some Building) as Hq
    by reflexivity.
  split; [exact Hne|]. split; [exact Hq|].
  exact (proj1 (building_request_rejected rivalState "ark-engine"
                  "2026-01-05T09:00:00.000Z" Hne Hq)).
Defined.

(** C4, as stated, fails: the handler has one alert for a score that is
    null and for a score below 3, so no pair of distinct reasons tells the
    two rejections apart. *)
Lemma confidence_reasons_coincide :
  ~ (exists unsetReason lowReason : string,
       unsetReason <> lowReason
       /\ forall (st : AppState) (s : ProjectStateStatus) (now : string),
            s = Building \/ s = Shipping ->
            (currentConfidenceScore st = None ->
             snd (handleUpdateProjectState st (set_stage s) now)
             = Some unsetReason)
            /\ (forall c, currentConfidenceScore st = Some c -> (c < 3)%Z ->
                snd (handleUpdateProjectState st (set_stage s) now)
                = Some lowReason)).
Proof.
  intros (unsetReason & lowReason & Hdiff & Hclaim).
  destruct (Hclaim unsetConfidenceState Building "2026-01-05T09:00:00.000Z"
                   (or_introl eq_refl)) as [Hunset _].
  destruct (Hclaim lowConfidenceState Building "2026-01-05T09:00:00.000Z"
                   (or_introl eq_refl)) as [_ Hlow].
  specialize (Hunset eq_refl).
  specialize (Hlow 2%Z eq_refl eq_refl).
  vm_compute in Hunset, Hlow. congruence.
Qed.

(** C4, amended. A request to move a project whose confidence score is
    null or below 3 into Building or Shipping is rejected with the alert
    that confidence must be 3 or more, the same in both cases, and the
    state, hence the project's stage, is left as it was. *)
Theorem low_confidence_rejected (st : AppState) (s : ProjectStateStatus)
        (now : string) :
  s = Building \/ s = Shipping ->
  currentConfidenceScore st = None
  \/ (exists c, currentConfidenceScore st = Some c /\ (c < 3)%Z) ->
  handleUpdateProjectState st (set_stage s) now = (st, Some ALERT_CONFIDENCE)
  /\ stageOf (fst (handleUpdateProjectState st (set_stage s) now))
             (selectedProjectId st)
     = stageOf st (selectedProjectId st).
Proof.
  intros Hs Hlow. apply confidence_gate in Hlow.
  assert (handleUpdateProjectState st (set_stage s) now
          = (st, Some ALERT_CONFIDENCE)) as Hrej.
  { unfold handleUpdateProjectState. rewrite Hlow.
    destruct Hs as [-> | ->]; reflexivity. }
  now rewrite Hrej.
Qed.

Lemma low_confidence_rejected_witness :
  stageOf unsetConfidenceState "signalcrypt" = Some Planning
  /\ currentConfidenceScore unsetConfidenceState = None
  /\ handleUpdateProjectState unsetConfidenceState (set_stage Building)
                              "2026-01-05T09:00:00.000Z"
     = (unsetConfidenceState, Some ALERT_CONFIDENCE).
Proof.
  split; [reflexivity|]. split; [reflexivity|].
  exact (proj1 (low_confidence_rejected unsetConfidenceState Building
                  "2026-01-05T09:00:00.000Z"
                  (or_introl eq_refl) (or_introl eq_refl))).
Defined.

(** ** Import validation *)

Lemma notAnArray_field x : notAnArray x = negb (isArrayField x).
Proof. destruct x as [[]|]; simpl; try reflexivity; now rewrite orb_true_r. Qed.

(** A well-shaped document is applied: the validation is the only way out
    before the collections are replaced. *)
Lemma handleImport_accepts st parsed :
  validImportShape parsed = true ->
  snd (handleImport st parsed) = Some ALERT_IMPORTED
  /\ exists data, parsed = ParsedObject data
                  /\ tasks (fst (handleImport st parsed))
                     = arrayItems (x_tasks data)
                  /\ logs (fst (handleImport st parsed))
                     = arrayItems (x_logs data).
Proof.
  destruct parsed as [| | |data]; simpl; try discriminate.
  intros Hv. apply andb_prop in Hv. destruct Hv as [Ht Hl].
  rewrite !notAnArray_field, Ht, Hl. simpl. eauto.
Qed.

(** Which alert a rejected object gets: the [tasks] check comes first. *)
Lemma handleImport_alert st data :
  snd (handleImport st (ParsedObject data))
  = if negb (isArrayField (x_tasks data)) then Some ALERT_TASKS
    else if negb (isArrayField (x_logs data)) then Some ALERT_LOGS
         else Some ALERT_IMPORTED.
Proof.
  simpl. rewrite !notAnArray_field.
  destruct (isArrayField (x_tasks data)), (isArrayField (x_logs data));
    reflexivity.
Qed.

(** C5. An import document without a [tasks] array or without a [logs]
    array (the property absent, or present and not an array) is rejected
    with an alert that names the fault, and the whole state, every
    collection included, is left as it was. *)
Theorem import_rejects_bad_shape (st : AppState) (parsed : ParseResult) :
  validImportShape parsed = false ->
  fst (handleImport st parsed) = st
  /\ isShapeAlert (snd (handleImport st parsed)).
Proof.
  unfold isShapeAlert.
  destruct parsed as [| | |data]; intros Hv.
  1-3: simpl; tauto.
  rewrite handleImport_alert. simpl in *. rewrite !notAnArray_field.
  apply andb_false_iff in Hv.
  destruct (isArrayField (x_tasks data)); simpl; [|tauto].
  destruct Hv as [Hv|Hv]; [discriminate|]. rewrite Hv. simpl. tauto.
Qed.

Lemma import_rejects_bad_shape_witness :
  validImportShape (ParsedObject badLogsImport) = false
  /\ fst (handleImport conflictState (ParsedObject badLogsImport))
     = conflictState
  /\ snd (handleImport conflictState (ParsedObject badLogsImport))
     = Some ALERT_LOGS.
Proof.
  split; [reflexivity|]. split; [|reflexivity].
  exact (proj1 (import_rejects_bad_shape conflictState
                  (ParsedObject badLogsImport) eq_refl)).
Defined.

(** ** Accepted stage changes and ledger updates *)

Lemma accepted_effect st u now :
  let st' := touchLedgerUpdate st now
               (setProjectState st
                  (JsObject.set (projectState st) (selectedProjectId st)
                     (assignStateField (currentProjectState st) u))) in
  JsObject.get (projectState st') (selectedProjectId st)
  = Some (assignStateField (currentProjectState st) u)
  /\ ledgerLastUpdated st' (selectedProjectId st) = Some now.
Proof.
  simpl. unfold ledgerLastUpdated. simpl. now rewrite !get_set_same.
Qed.

(** A stage request ends in the state it started from, with an alert, or
    in the accepting branch, without one. *)
Lemma stage_request_cases st s now :
  (exists a, handleUpdateProjectState st (set_stage s) now = (st, Some a))
  \/ handleUpdateProjectState st (set_stage s) now
     = (touchLedgerUpdate st now
          (setProjectState st
             (JsObject.set (projectState st) (selectedProjectId st)
                (assignStateField (currentProjectState st) (set_stage s)))),
        None).
Proof.
  unfold handleUpdateProjectState.
  destruct ((ProjectStateStatus_eqb s Building
             || ProjectStateStatus_eqb s Shipping)
            && (isConfidenceLow st || isConfidenceUnset st)); [eauto|].
  destruct (ProjectStateStatus_eqb s Building); [|now right].
  match goal with |- context [if ?b then _ else _] => destruct b end;
    [eauto | now right].
Qed.

(** C6. Moving a project to Planning, Maintenance or Paused is always
    accepted, whatever its confidence score and the other projects'
    stages; and every accepted stage change records the requested stage
    for the project and the time of the call as its ledger's
    [lastUpdated]. *)
Theorem stage_change_accepted (st : AppState) (s : ProjectStateStatus)
        (now : string) :
  (s = Planning \/ s = Maintenance \/ s = Paused ->
   snd (handleUpdateProjectState st (set_stage s) now) = None)
  /\ (snd (handleUpdateProjectState st (set_stage s) now) = None ->
      stageOf (fst (handleUpdateProjectState st (set_stage s) now))
              (selectedProjectId st) = Some s
      /\ ledgerLastUpdated (fst (handleUpdateProjectState st (set_stage s) now))
                           (selectedProjectId st) = Some now).
Proof.
  split.
  - intros [-> | [-> | ->]]; reflexivity.
  - destruct (stage_request_cases st s now) as [(a & Hrej) | Hacc].
    + rewrite Hrej. discriminate.
    + rewrite Hacc. intros _.
      destruct (accepted_effect st (set_stage s) now) as [Hst Hled].
      cbv zeta in Hst, Hled. unfold stageOf. cbn [fst].
      rewrite Hst. split; [reflexivity | exact Hled].
Qed.

Lemma stage_change_accepted_witness :
  snd (handleUpdateProjectState arkBuildingState (set_stage Planning)
         "2026-01-05T09:00:00.000Z") = None
  /\ stageOf (fst (handleUpdateProjectState arkBuildingState
                     (set_stage Planning) "2026-01-05T09:00:00.000Z"))
             "signalcrypt" = Some Planning
  /\ ledgerLastUpdated
       (fst (handleUpdateProjectState arkBuildingState (set_stage Planning)
               "2026-01-05T09:00:00.000Z"))
       "signalcrypt" = Some "2026-01-05T09:00:00.000Z".
Proof.
  pose proof (stage_change_accepted arkBuildingState Planning
                "2026-01-05T09:00:00.000Z") as [Hok Heff].
  specialize (Hok (or_introl eq_refl)).
  split; [exact Hok | exact (Heff Hok)].
Defined.

(** C7, as stated, fails: a confidence score of 7 is stored as it is. *)
Lemma out_of_range_confidence_stored :
  ~ (forall (st : AppState) (v : Z) (now : string),
       (v < 1 \/ 5 < v)%Z ->
       projectLedger
         (fst (handleUpdateProjectLedger st (set_confidenceScore (Some v)) now))
       = projectLedger st).
Proof.
  intros Hclaim.
  specialize (Hclaim seedState 7%Z "2026-01-05T09:00:00.000Z"
                     (or_intror eq_refl)).
  apply (f_equal (fun l => option_map confidenceScore
                             (JsObject.get l "ark-engine"))) in Hclaim.
  vm_compute in Hclaim. discriminate Hclaim.
Qed.

(** C7, amended. Setting the confidence score stores the value given, be
    it null, in 1..5 or outside that range, without any range check, and
    records the time of the call as [lastUpdated]. *)
Theorem confidence_stored_as_given (st : AppState) (v : option Z)
        (now : string) :
  let r := handleUpdateProjectLedger st (set_confidenceScore v) now in
  snd r = None
  /\ option_map confidenceScore
                (JsObject.get (projectLedger (fst r)) (selectedProjectId st))
     = Some v
  /\ ledgerLastUpdated (fst r) (selectedProjectId st) = Some now.
Proof.
  simpl. unfold ledgerLastUpdated. simpl. rewrite !get_set_same.
  repeat split.
Qed.

(** C8. Setting the confidence score to 4 twice in a row leaves the score
    the first call left, 4, and the [lastUpdated] of the second call. *)
Theorem confidence_update_twice (st : AppState) (t1 t2 : string) :
  let once := fst (handleUpdateProjectLedger st
                     (set_confidenceScore (Some 4%Z)) t1) in
  let twice := fst (handleUpdateProjectLedger once
                      (set_confidenceScore (Some 4%Z)) t2) in
  ledgerConfidence twice (selectedProjectId st) = Some 4%Z
  /\ ledgerConfidence twice (selectedProjectId st)
     = ledgerConfidence once (selectedProjectId st)
  /\ ledgerLastUpdated twice (selectedProjectId st) = Some t2
  /\ ledgerLastUpdated once (selectedProjectId st) = Some t1.
Proof.
  simpl. unfold ledgerConfidence, ledgerLastUpdated. simpl.
  rewrite !get_set_same. repeat split.
Qed.

(** C9. A stage-change request leaves the project-state entry, hence the
    stage, of every project other than the requested one as it was,
    accepted or not; and a rejected request leaves the whole state as it
    was, the project's own state and ledger included. *)
Theorem stage_change_frame (st : AppState) (s : ProjectStateStatus)
        (now q : string) :
  (q <> selectedProjectId st ->
   JsObject.get
     (projectState (fst (handleUpdateProjectState st (set_stage s) now))) q
   = JsObject.get (projectState st) q
   /\ stageOf (fst (handleUpdateProjectState st (set_stage s) now)) q
      = stageOf st q)
  /\ (snd (handleUpdateProjectState st (set_stage s) now) <> None ->
      fst (handleUpdateProjectState st (set_stage s) now) = st).
Proof.
  destruct (stage_request_cases st s now) as [(a & Hrej) | Hacc].
  - rewrite Hrej. simpl. tauto.
  - rewrite Hacc. cbn [fst snd]. split; [|congruence].
    intros Hne. unfold stageOf. rewrite accepted_projectState.
    rewrite get_set_other by congruence. tauto.
Qed.

Lemma stage_change_frame_witness :
  "ark-engine" <> selectedProjectId rivalState
  /\ stageOf (fst (handleUpdateProjectState rivalState (set_stage Shipping)
                     "2026-01-05T09:00:00.000Z")) "ark-engine"
     = Some Building
  /\ fst (handleUpdateProjectState rivalState (set_stage Building)
            "2026-01-05T09:00:00.000Z") = rivalState.
Proof.
  assert ("ark-engine" <> selectedProjectId rivalState) as Hne
    by (vm_compute; discriminate).
  split; [exact Hne|]. split.
  - rewrite (proj2 (proj1 (stage_change_frame rivalState Shipping
                             "2026-01-05T09:00:00.000Z" "ark-engine") Hne)).
    reflexivity.
  - apply (proj2 (stage_change_frame rivalState Building
                    "2026-01-05T09:00:00.000Z" "ark-engine")).
    vm_compute. discriminate.
Defined.

(** ** Fetched batches *)

Lemma normalizeApproval_cases a :
  (exists x, a = Some x /\ r_status x = Some "APPROVED"
             /\ normalizeApproval a
                = {| status := "APPROVED"; approvedBy := r_approvedBy x;
                     approvedAt := r_approvedAt x |})
  \/ ((forall x, a = Some x -> r_status x <> Some "APPROVED")
      /\ normalizeApproval a = PENDING_APPROVAL).
Proof.
  destruct a as [x|]; simpl.
  - destruct (r_status x) as [s|] eqn:Hs.
    + destruct (String.eqb_spec s "APPROVED") as [->|Hne].
      * left. exists x. auto.
      * right. split; [|reflexivity]. intros y [= <-]. congruence.
    + right. split; [|reflexivity]. intros y [= <-]. congruence.
  - right. split; [discriminate | reflexivity].
Qed.

(** C10. When the fetch gets a successful response with a body, the batch
    kept in the state and in storage is the body with its approval
    normalised: the status is APPROVED only if the body carried APPROVED;
    with any other status, REJECTED included, or none, the approval is
    PENDING with empty [approvedBy] and [approvedAt]; the status kept is
    never REJECTED. *)
Theorem fetched_batch_approval (st : AppState) (http : Z) (b : ResponseBatch)
        (now : string) :
  isSignalCryptLocked st = false -> res_ok http = true ->
  exists kept : SignalCryptBatch,
    scBatch (fetchSignalCryptBatch st (FetchResponse http (inr b)) now)
    = Some kept
    /\ storedBatch (fetchSignalCryptBatch st (FetchResponse http (inr b)) now)
       = Some kept
    /\ batch kept = r_batch b
    /\ (status (approval kept) = "APPROVED" <-> carriesApproved b)
    /\ (~ carriesApproved b ->
        status (approval kept) = "PENDING"
        /\ approvedBy (approval kept) = ""
        /\ approvedAt (approval kept) = "")
    /\ status (approval kept) <> "REJECTED".
Proof.
  intros Hopen Hok. unfold fetchSignalCryptBatch. rewrite Hopen, Hok.
  cbn [negb]. eexists. cbn [scBatch storedBatch setSc batch approval].
  split; [reflexivity|]. split; [reflexivity|]. split; [reflexivity|].
  unfold carriesApproved.
  destruct (normalizeApproval_cases (r_approval b))
    as [(x & Hx & Hs & ->) | [Hnot ->]]; simpl.
  - split; [|split].
    + split; [eauto | reflexivity].
    + intros Hn. exfalso. apply Hn. eauto.
    + discriminate.
  - split; [|split].
    + split; [discriminate|].
      intros (x & Hx & Hs). exfalso. now apply (Hnot x Hx).
    + tauto.
    + discriminate.
Qed.

Lemma fetched_batch_approval_witness :
  isSignalCryptLocked rivalState = false
  /\ res_ok 200 = true
  /\ exists kept : SignalCryptBatch,
       scBatch (fetchSignalCryptBatch rivalState
                  (FetchResponse 200 (inr rejectedResponse))
                  "2026-01-05T09:00:00.000Z") = Some kept
       /\ approval kept = PENDING_APPROVAL.
Proof.
  split; [reflexivity|]. split; [reflexivity|].
  destruct (fetched_batch_approval rivalState 200 rejectedResponse
              "2026-01-05T09:00:00.000Z" eq_refl eq_refl)
    as (kept & Hkept & _).
  exists kept. split; [exact Hkept|].
  vm_compute in Hkept. now inversion Hkept.
Defined.

(* ================================================================= *)
(** * Further properties of the engine *)

(** ** Stage options, guards and the lock *)

Lemma others_empty_cases (l : list string) (k : string) :
  filter (fun x => negb (String.eqb x k)) l = [] ->
  l = [] \/ includes l k = true.
Proof.
  destruct l as [|x rest]; [now left|]. simpl.
  destruct (String.eqb_spec x k) as [->|Hne]; simpl; [|discriminate].
  intros _. right. unfold includes. simpl. now rewrite String.eqb_refl.
Qed.

Lemma update_cases st u now :
  (exists a, handleUpdateProjectState st u now = (st, Some a))
  \/ handleUpdateProjectState st u now
     = (touchLedgerUpdate st now
          (setProjectState st
             (JsObject.set (projectState st) (selectedProjectId st)
                (assignStateField (currentProjectState st) u))),
        None).
Proof.
  destruct u as [s | v | v]; [apply stage_request_cases | now right..].
Qed.

(** The Shipping option of the stage select is enabled exactly when the
    handler accepts Shipping; an accepted Building request was an enabled
    option; and while at most one project is in Building, an enabled
    Building option is accepted. *)
Theorem stage_options_match_guards (st : AppState) (now : string) :
  (snd (handleUpdateProjectState st (set_stage Shipping) now) = None
   <-> canEnterShipping st = true)
  /\ (snd (handleUpdateProjectState st (set_stage Building) now) = None ->
      canEnterBuilding st = true)
  /\ (SingleBuilding st -> canEnterBuilding st = true ->
      snd (handleUpdateProjectState st (set_stage Building) now) = None).
Proof.
  unfold handleUpdateProjectState, canEnterShipping, canEnterBuilding,
    SingleBuilding.
  simpl ProjectStateStatus_eqb. cbv iota.
  rewrite !orb_true_l, !orb_true_r, !andb_true_l.
  set (others := filter _ (buildingProjectIds st)).
  destruct (isConfidenceLow st), (isConfidenceUnset st); simpl;
    try (repeat split; intros; discriminate).
  split; [tauto|].
  destruct others as [|o os] eqn:Ho; simpl; split.
  - intros _. subst others.
    destruct (others_empty_cases _ _ Ho) as [-> | ->];
      [reflexivity | apply orb_true_r].
  - reflexivity.
  - discriminate.
  - intros Hone Hcan. exfalso. subst others.
    destruct (buildingProjectIds st) as [|x [|y rest]];
      simpl in *; try discriminate; try lia.
    unfold includes in Hcan. simpl in Hcan. rewrite orb_false_r in Hcan.
    apply String.eqb_eq in Hcan. subst x.
    rewrite String.eqb_refl in Ho. discriminate.
Qed.

Lemma stage_options_match_guards_witness :
  SingleBuilding readyState
  /\ canEnterBuilding readyState = true
  /\ snd (handleUpdateProjectState readyState (set_stage Building)
            "2026-01-05T09:00:00.000Z") = None.
Proof.
  assert (SingleBuilding readyState) as Hone
    by (unfold SingleBuilding; simpl; lia).
  split; [exact Hone|]. split; [reflexivity|].
  exact (proj2 (proj2 (stage_options_match_guards readyState
                         "2026-01-05T09:00:00.000Z")) Hone eq_refl).
Defined.

Example enabled_option_refused_in_conflict :
  let st := setSelectedProjectId conflictState "signalcrypt" in
  canEnterBuilding st = true
  /\ snd (handleUpdateProjectState st (set_stage Building)
            "2026-01-05T09:00:00.000Z") = Some ALERT_BUILDING.
Proof. split; reflexivity. Qed.

Lemma building_accept_guard st now :
  snd (handleUpdateProjectState st (set_stage Building) now) = None ->
  othersBuilding (projectState st) (selectedProjectId st) = []
  /\ isConfidenceLow st || isConfidenceUnset st = false.
Proof.
  unfold handleUpdateProjectState. simpl ProjectStateStatus_eqb. cbv iota.
  rewrite orb_true_l, andb_true_l.
  destruct (isConfidenceLow st || isConfidenceUnset st); [discriminate|].
  change (filter (fun projectId : string =>
                    negb (String.eqb projectId (selectedProjectId st)))
                 (buildingProjectIds st))
    with (othersBuilding (projectState st) (selectedProjectId st)).
  destruct (othersBuilding (projectState st) (selectedProjectId st));
    simpl; [tauto | discriminate].
Qed.

Lemma building_ids_after_set o k v :
  JsObject.wf o -> othersBuilding o k = [] -> stage v = Building ->
  map fst (filter inBuilding (JsObject.set o k v)) = [k].
Proof.
  unfold JsObject.wf. intros Hwf Hnil Hv.
  assert (inBuilding (k, v) = true) as Hkv
    by (unfold inBuilding; simpl; now rewrite Hv).
  induction o as [|[k' v'] rest IH]; cbn [JsObject.set].
  - cbn [filter]. now rewrite Hkv.
  - inversion Hwf as [|? ? Hnin Hwf']; subst.
    destruct (String.eqb_spec k k') as [Heq|Hne].
    + subst k'.
      assert (countBuilding rest = 0) as Hzero.
      { apply (othersBuilding_absent rest k); [exact Hnin|].
        revert Hnil. unfold othersBuilding. simpl.
        destruct (inBuilding (k, v')); simpl; [|tauto].
        now rewrite String.eqb_refl. }
      unfold countBuilding in Hzero. apply length_zero_iff_nil in Hzero.
      cbn [filter]. now rewrite Hkv, Hzero.
    + assert (inBuilding (k', v') = false /\ othersBuilding rest k = [])
        as [Hb Hrest].
      { revert Hnil. unfold othersBuilding. simpl.
        destruct (inBuilding (k', v')); simpl; [|tauto].
        destruct (String.eqb_spec k' k); [congruence | discriminate]. }
      cbn [filter]. rewrite Hb. now apply IH.
Qed.

(** Once a move into Building is accepted, the selected project is the
    only project in Building and the conflict flag is off, whatever the
    state was before. *)
Theorem accepted_building_is_sole (st : AppState) (now : string) :
  WellFormed st ->
  snd (handleUpdateProjectState st (set_stage Building) now) = None ->
  buildingProjectIds (fst (handleUpdateProjectState st (set_stage Building) now))
  = [selectedProjectId st]
  /\ hasBuildingConflict
       (fst (handleUpdateProjectState st (set_stage Building) now)) = false.
Proof.
  intros Hwf Hacc.
  destruct (building_accept_guard st now Hacc) as [Hnil _].
  destruct (stage_request_cases st Building now) as [(a & Hrej) | Heq].
  - rewrite Hrej in Hacc. discriminate.
  - assert (buildingProjectIds
              (fst (handleUpdateProjectState st (set_stage Building) now))
            = [selectedProjectId st]) as Hids.
    { rewrite Heq. cbn [fst]. unfold buildingProjectIds, JsObject.entries.
      rewrite accepted_projectState.
      now apply building_ids_after_set. }
    split; [exact Hids|]. unfold hasBuildingConflict. now rewrite Hids.
Qed.

Lemma accepted_building_is_sole_witness :
  WellFormed readyState
  /\ buildingProjectIds
       (fst (handleUpdateProjectState readyState (set_stage Building)
               "2026-01-05T09:00:00.000Z")) = ["ark-engine"].
Proof.
  assert (WellFormed readyState) as Hwf.
  { apply (run_invariant _ seedState seedState_wf).
    unfold SingleBuilding. simpl. lia. }
  split; [exact Hwf|].
  exact (proj1 (accepted_building_is_sole readyState
                  "2026-01-05T09:00:00.000Z" Hwf eq_refl)).
Defined.

(** ** Ledger edits and the lock *)

Lemma updated_ledger_entry st u now :
  JsObject.get (projectLedger (fst (handleUpdateProjectLedger st u now)))
               (selectedProjectId st)
  = Some (withLastUpdated (assignLedgerField (baseLedger st) u) now).
Proof. simpl. apply get_set_same. Qed.

Lemma baseLedger_confidence st :
  confidenceScore (baseLedger st) = ledgerConfidence st (selectedProjectId st).
Proof.
  unfold baseLedger, ledgerConfidence.
  destruct (JsObject.get (projectLedger st) (selectedProjectId st)) eqn:Hget;
    [reflexivity|].
  change (confidenceScore (currentProjectLedger st))
    with (currentConfidenceScore st).
  rewrite currentConfidenceScore_ledger. unfold ledgerConfidence.
  now rewrite Hget.
Qed.


(** Neither an edit of the project state, accepted or not, nor the weekly
    mark changes the confidence score of any project, the edited one
    included, even when its ledger entry is only created by the edit. *)
Theorem state_edits_keep_confidence (st : AppState) (u : ProjectStateUpdate)
        (now q : string) :
  ledgerConfidence (fst (handleUpdateProjectState st u now)) q
  = ledgerConfidence st q
  /\ ledgerConfidence (fst (handleMarkWeeklyUpdate st now)) q
     = ledgerConfidence st q.
Proof.
  assert (ledgerConfidence
            (setProjectLedger st
               (JsObject.set (projectLedger st) (selectedProjectId st)
                             (withLastUpdated (baseLedger st) now))) q
          = ledgerConfidence st q) as Htouch.
  { unfold ledgerConfidence at 1. cbn [projectLedger setProjectLedger].
    destruct (String.eqb_spec (selectedProjectId st) q) as [<-|Hne].
    - rewrite get_set_same. cbn [confidenceScore withLastUpdated].
      apply baseLedger_confidence.
    - now rewrite get_set_other. }
  split; [|exact Htouch].
  destruct (update_cases st u now) as [(a & Hrej) | Hacc].
  - now rewrite Hrej.
  - rewrite Hacc. cbn [fst]. exact Htouch.
Qed.

(** A ledger edit leaves the project states, hence every stage and the
    list of Building projects, as they were, also when it lowers the
    confidence of a project in Building; it leaves the other projects'
    ledger entries alone; it stamps [lastUpdated] with the time of the
    call, even when the edited field is [lastUpdated]; and an edit of
    another field than the confidence score keeps the score. *)
Theorem ledger_update_frame (st : AppState) (u : ProjectLedgerUpdate)
        (now q : string) :
  let st' := fst (handleUpdateProjectLedger st u now) in
  projectState st' = projectState st
  /\ buildingProjectIds st' = buildingProjectIds st
  /\ (q <> selectedProjectId st ->
      JsObject.get (projectLedger st') q = JsObject.get (projectLedger st) q)
  /\ ledgerLastUpdated st' (selectedProjectId st) = Some now
  /\ match u with
     | set_confidenceScore _ => True
     | _ => ledgerConfidence st' (selectedProjectId st)
            = ledgerConfidence st (selectedProjectId st)
     end.
Proof.
  intros st'. split; [reflexivity|]. split; [reflexivity|].
  split; [|split].
  - intros Hne. subst st'. simpl. apply get_set_other. congruence.
  - unfold ledgerLastUpdated. subst st'. now rewrite updated_ledger_entry.
  - destruct u as [f v | v | v]; [|exact I|];
      unfold ledgerConfidence at 1; subst st';
      rewrite updated_ledger_entry;
      cbn [confidenceScore withLastUpdated assignLedgerField withText];
      apply baseLedger_confidence.
Qed.

Lemma ledger_update_frame_witness :
  "ark-engine" <> selectedProjectId arkBuildingState
  /\ JsObject.get
       (projectLedger
          (fst (handleUpdateProjectLedger arkBuildingState
                  (set_text f_mission "Audit trust claims")
                  "2026-01-05T09:00:00.000Z"))) "ark-engine"
     = JsObject.get (projectLedger arkBuildingState) "ark-engine".
Proof.
  assert ("ark-engine" <> selectedProjectId arkBuildingState) as Hne
    by (vm_compute; discriminate).
  split; [exact Hne|].
  exact (proj1 (proj2 (proj2 (ledger_update_frame arkBuildingState
                                (set_text f_mission "Audit trust claims")
                                "2026-01-05T09:00:00.000Z" "ark-engine")))
               Hne).
Defined.



(** The SignalCrypt lock is the execution lock of the SignalCrypt project,
    or the project being paused. *)
Theorem signalcrypt_lock_is_execution_lock (st : AppState) :
  isSignalCryptLocked st
  = isExecutionBlocked (setSelectedProjectId st "signalcrypt")
    || isSignalCryptPaused st.
Proof.
  assert (signalCryptConfidence st
          = currentConfidenceScore (setSelectedProjectId st "signalcrypt"))
    as Hc.
  { unfold signalCryptConfidence, signalCryptLedger, currentConfidenceScore,
      currentProjectLedger. cbn [projectLedger selectedProjectId
                                 setSelectedProjectId].
    destruct (JsObject.get (projectLedger st) "signalcrypt"); reflexivity. }
  unfold isSignalCryptLocked, isExecutionBlocked, isConfidenceLow,
    isConfidenceUnset. rewrite Hc.
  change (hasBuildingConflict (setSelectedProjectId st "signalcrypt"))
    with (hasBuildingConflict st).
  destruct (hasBuildingConflict st), (isSignalCryptPaused st),
    (currentConfidenceScore (setSelectedProjectId st "signalcrypt")) as [c|];
    simpl; try reflexivity; destruct (c <? 3)%Z; reflexivity.
Qed.

(** ** Import and first load: how stored entries merge with the defaults *)

Section MergeFacts.
Context {V W : Type}.
Implicit Types (acc : JsObject.t V) (k : string).

Lemma get_absent (o : JsObject.t W) k :
  ~ In k (JsObject.keys o) -> JsObject.get o k = None.
Proof.
  unfold JsObject.keys. induction o as [|[k' v'] rest IH]; simpl;
    [reflexivity|].
  intros Hnin. destruct (String.eqb_spec k k') as [Heq|Hne];
    [exfalso; apply Hnin; left; congruence|].
  apply IH. tauto.
Qed.

(** Laying entries over an object, each entry made from the imported value
    and from what the object held under its key. *)
Lemma overlay_lookup (mk : W -> option V -> V) (l : JsObject.t W) :
  JsObject.wf l -> forall acc k,
  JsObject.get
    (fold_left (fun acc e =>
                  JsObject.set acc (fst e)
                               (mk (snd e) (JsObject.get acc (fst e))))
               l acc) k
  = match JsObject.get l k with
    | Some w => Some (mk w (JsObject.get acc k))
    | None => JsObject.get acc k
    end.
Proof.
  unfold JsObject.wf, JsObject.keys.
  induction l as [|[k0 w0] rest IH]; intros Hwf acc k; [reflexivity|].
  inversion Hwf as [|? ? Hnin Hwf']; subst. cbn [fold_left fst snd].
  rewrite (IH Hwf'). cbn [JsObject.get].
  destruct (String.eqb_spec k k0) as [->|Hne].
  - rewrite (get_absent rest k0 Hnin). apply get_set_same.
  - rewrite get_set_other by congruence. reflexivity.
Qed.



End MergeFacts.

Lemma overlay_keeps_entries {V W : Type} (mk : W -> option V -> V)
      (l : JsObject.t W) (k : string) : forall acc : JsObject.t V,
  JsObject.get acc k <> None ->
  JsObject.get
    (fold_left (fun acc e =>
                  JsObject.set acc (fst e)
                               (mk (snd e) (JsObject.get acc (fst e))))
               l acc) k <> None.
Proof.
  induction l as [|[k0 w0] rest IH]; intros acc Hk; [exact Hk|].
  cbn [fold_left fst snd]. apply IH.
  destruct (String.eqb_spec k0 k) as [->|Hne].
  - rewrite get_set_same. discriminate.
  - now rewrite get_set_other.
Qed.

Lemma default_state_entry d :
  In d DEFAULT_PROJECTS ->
  JsObject.get createDefaultProjectState (id d) = Some defaultState.
Proof.
  simpl. intros Hin.
  repeat (destruct Hin as [<-|Hin]; [reflexivity|]). contradiction.
Qed.

Lemma default_ledger_entry d :
  In d DEFAULT_PROJECTS ->
  JsObject.get createDefaultProjectLedger (id d) = Some (blankLedger (goal d))
  /\ goal d <> "".
Proof.
  simpl. intros Hin.
  repeat (destruct Hin as [<-|Hin]; [split; [reflexivity | discriminate]|]).
  contradiction.
Qed.

Lemma importProjectState_get imported k :
  JsObject.wf imported ->
  JsObject.get (importProjectState imported) k
  = match JsObject.get imported k with
    | Some s => Some s
    | None => JsObject.get createDefaultProjectState k
    end.
Proof.
  intros Hwf. unfold importProjectState, JsObject.entries.
  apply (overlay_lookup (fun (s : ProjectState) _ => s) imported Hwf).
Qed.

Lemma importProjectLedger_get imported k :
  JsObject.wf imported ->
  JsObject.get (importProjectLedger imported) k
  = match JsObject.get imported k with
    | Some e => Some (mergedLedgerEntry k e)
    | None => JsObject.get createDefaultProjectLedger k
    end.
Proof.
  intros Hwf. unfold importProjectLedger, JsObject.entries.
  exact (overlay_lookup
           (fun (e : ProjectLedger) old =>
              withOneSentenceGoal e
                (orElse (oneSentenceGoal e)
                        match old with
                        | Some d => oneSentenceGoal d
                        | None => ""
                        end))
           imported Hwf createDefaultProjectLedger k).
Qed.

(** An imported project state is laid over the defaults entry by entry: a
    project of the document gets the document's entry, stage included,
    without any check of the stage rules; any other project keeps (or
    gets) its default entry. *)
Theorem import_project_state_lookup (imported : JsObject.t ProjectState)
        (k : string) :
  JsObject.wf imported ->
  JsObject.get (importProjectState imported) k
  = match JsObject.get imported k with
    | Some s => Some s
    | None => JsObject.get createDefaultProjectState k
    end.
Proof. apply importProjectState_get. Qed.

Lemma import_project_state_lookup_witness :
  JsObject.get
    (importProjectState
       [("signalcrypt",
         {| stage := Shipping; blockers := "none"; nextCheckpoint := "" |})])
    "ark-engine"
  = Some defaultState.
Proof.
  rewrite import_project_state_lookup.
  - reflexivity.
  - repeat constructor. simpl. tauto.
Defined.



Lemma orElse_nonempty a b : b <> "" -> orElse a b <> "".
Proof.
  unfold orElse. destruct (String.eqb_spec a ""); congruence.
Qed.

(** An imported ledger is laid over the defaults entry by entry; the
    document's entry is taken as it is, confidence score included, except
    that an empty one-sentence goal is replaced by the seed goal of the
    project, so that a seed project never ends up without a goal. *)
Theorem import_project_ledger_lookup (imported : JsObject.t ProjectLedger)
        (k : string) :
  JsObject.wf imported ->
  JsObject.get (importProjectLedger imported) k
  = match JsObject.get imported k with
    | Some e => Some (mergedLedgerEntry k e)
    | None => JsObject.get createDefaultProjectLedger k
    end
  /\ (forall e, confidenceScore (mergedLedgerEntry k e) = confidenceScore e
                /\ lastUpdated (mergedLedgerEntry k e) = lastUpdated e
                /\ (oneSentenceGoal e <> "" -> mergedLedgerEntry k e = e))
  /\ (forall d e, In d DEFAULT_PROJECTS -> k = id d ->
                  oneSentenceGoal (mergedLedgerEntry k e) <> "").
Proof.
  intros Hwf. split; [|split].
  - now apply importProjectLedger_get.
  - intros e. repeat split.
    unfold mergedLedgerEntry, orElse. intros Hne.
    destruct (String.eqb_spec (oneSentenceGoal e) ""); [contradiction|].
    now destruct e.
  - intros d e Hd ->. unfold mergedLedgerEntry.
    cbn [oneSentenceGoal withOneSentenceGoal withText].
    apply orElse_nonempty. unfold defaultGoal.
    destruct (default_ledger_entry d Hd) as [-> Hgoal]. exact Hgoal.
Qed.

Lemma import_project_ledger_lookup_witness :
  option_map oneSentenceGoal
    (JsObject.get
       (importProjectLedger
          [("surplus", withConfidenceScore (blankLedger "") (Some 9%Z))])
       "surplus")
  = Some "Identify surplus or public assets and match buyers intelligently.".
Proof.
  assert (JsObject.wf
            [("surplus", withConfidenceScore (blankLedger "") (Some 9%Z))])
    as Hwf by (repeat constructor; simpl; tauto).
  rewrite (proj1 (import_project_ledger_lookup _ "surplus" Hwf)).
  reflexivity.
Defined.

(** ** Merging stored projects with the seed list *)

Lemma mergeProjects_unfold l :
  mergeProjects l
  = fold_left (fun merged project =>
                 if hasProject merged (id project) then merged
                 else (merged ++ [project])%list)
              DEFAULT_PROJECTS (map mergeOne l).
Proof. reflexivity. Qed.

Section AppendMissing.
Implicit Types (ds m : list Project).

Let appendMissing ds m : list Project :=
  fold_left (fun merged project =>
               if hasProject merged (id project) then merged
               else (merged ++ [project])%list) ds m.

Lemma appendMissing_prefix ds : forall m,
  exists extra, appendMissing ds m = (m ++ extra)%list
                /\ incl extra ds.
Proof.
  induction ds as [|d rest IH]; intros m.
  - exists []. split; [now rewrite app_nil_r | apply incl_refl].
  - cbn [appendMissing fold_left].
    destruct (hasProject m (id d)).
    + destruct (IH m) as (extra & Heq & Hincl).
      exists extra. split; [exact Heq | now apply incl_tl].
    + destruct (IH (m ++ [d])%list) as (extra & Heq & Hincl).
      exists (d :: extra). split.
      * unfold appendMissing in Heq. rewrite Heq. now rewrite <- app_assoc.
      * intros x [<-|Hx]; [now left | right; now apply Hincl].
Qed.

Lemma appendMissing_has ds : forall m k,
  hasProject m k = true \/ In k (map id ds) ->
  hasProject (appendMissing ds m) k = true.
Proof.
  unfold hasProject.
  induction ds as [|d rest IH]; intros m k [Hm|Hin];
    try exact Hm; try contradiction; cbn [appendMissing fold_left].
  - apply IH. left.
    destruct (hasProject m (id d)); [exact Hm|].
    rewrite existsb_app, Hm. reflexivity.
  - apply IH. destruct Hin as [<-|Hin]; [left | now right].
    unfold hasProject.
    destruct (existsb (fun p => String.eqb (id p) (id d)) m) eqn:Hd;
      [exact Hd|].
    rewrite existsb_app. simpl. rewrite String.eqb_refl.
    now rewrite orb_true_r.
Qed.

Lemma appendMissing_full ds : forall m,
  (forall d, In d ds -> hasProject m (id d) = true) ->
  appendMissing ds m = m.
Proof.
  induction ds as [|d rest IH]; intros m Hall; [reflexivity|].
  cbn [appendMissing fold_left]. rewrite (Hall d (or_introl eq_refl)).
  apply IH. intros d' Hd'. apply Hall. now right.
Qed.

End AppendMissing.

Lemma mergeOne_keeps_id p : id (mergeOne p) = id p.
Proof.
  unfold mergeOne.
  now destruct (find (fun d => String.eqb (id d) (id p)) DEFAULT_PROJECTS).
Qed.

Lemma orElse_twice a b : orElse (orElse a b) b = orElse a b.
Proof.
  unfold orElse. destruct (String.eqb_spec a "") as [->|Ha].
  - now destruct (String.eqb b "").
  - destruct (String.eqb_spec a ""); [contradiction | reflexivity].
Qed.

Lemma mergeOne_twice p : mergeOne (mergeOne p) = mergeOne p.
Proof.
  unfold mergeOne at 1. rewrite mergeOne_keeps_id. unfold mergeOne.
  destruct (find (fun d => String.eqb (id d) (id p)) DEFAULT_PROJECTS)
    as [d|]; [|reflexivity].
  cbn [id name goal category]. now rewrite !orElse_twice.
Qed.

Lemma mergeOne_default d : In d DEFAULT_PROJECTS -> mergeOne d = d.
Proof.
  simpl. intros Hin.
  repeat (destruct Hin as [<-|Hin]; [reflexivity|]). contradiction.
Qed.

Lemma default_names_nonempty d :
  In d DEFAULT_PROJECTS -> name d <> "" /\ goal d <> "".
Proof.
  simpl. intros Hin.
  repeat (destruct Hin as [<-|Hin]; [split; discriminate|]). contradiction.
Qed.

Lemma mergeProjects_prefix storedProjects :
  exists extra,
    mergeProjects storedProjects = (map mergeOne storedProjects ++ extra)%list
    /\ incl extra DEFAULT_PROJECTS.
Proof. rewrite mergeProjects_unfold. apply appendMissing_prefix. Qed.

Lemma mergeProjects_has_seed storedProjects d :
  In d DEFAULT_PROJECTS ->
  hasProject (mergeProjects storedProjects) (id d) = true.
Proof.
  intros Hd. rewrite mergeProjects_unfold. apply appendMissing_has.
  right. now apply in_map.
Qed.

(** [mergeProjects] keeps the stored projects in their order, each under
    its id, followed only by seed projects; every seed project is in the
    result; a stored project unknown to the seed list is kept untouched,
    and a stored seed project never keeps an empty name or goal. *)
Theorem mergeProjects_shape (storedProjects : list Project) :
  (exists extra,
      mergeProjects storedProjects
      = (map mergeOne storedProjects ++ extra)%list
      /\ incl extra DEFAULT_PROJECTS)
  /\ map id (map mergeOne storedProjects) = map id storedProjects
  /\ (forall d, In d DEFAULT_PROJECTS ->
                hasProject (mergeProjects storedProjects) (id d) = true)
  /\ (forall p, hasProject DEFAULT_PROJECTS (id p) = false -> mergeOne p = p)
  /\ (forall p, In p (mergeProjects storedProjects) ->
                hasProject DEFAULT_PROJECTS (id p) = true ->
                name p <> "" /\ goal p <> "").
Proof.
  pose proof (mergeProjects_prefix storedProjects) as Hshape.
  split; [exact Hshape|]. split; [|split; [|split]].
  - rewrite map_map. apply map_ext. apply mergeOne_keeps_id.
  - intros d Hd. now apply mergeProjects_has_seed.
  - intros p Hno. unfold mergeOne, hasProject in *.
    destruct (find (fun d => String.eqb (id d) (id p)) DEFAULT_PROJECTS)
      as [d|] eqn:Hfind; [|reflexivity].
    apply find_some in Hfind. destruct Hfind as [Hd Heq].
    assert (existsb (fun p0 => String.eqb (id p0) (id p)) DEFAULT_PROJECTS
            = true) as Hyes
      by (apply existsb_exists; now exists d).
    congruence.
  - destruct Hshape as (extra & -> & Hincl).
    intros p Hin Hknown. apply in_app_or in Hin.
    destruct Hin as [Hin|Hin];
      [|apply default_names_nonempty; now apply Hincl].
    apply in_map_iff in Hin. destruct Hin as (q & <- & _).
    rewrite mergeOne_keeps_id in Hknown. unfold mergeOne, hasProject in *.
    destruct (find (fun d => String.eqb (id d) (id q)) DEFAULT_PROJECTS)
      as [d|] eqn:Hfind.
    + apply find_some in Hfind. destruct Hfind as [Hd _].
      destruct (default_names_nonempty d Hd) as [Hn Hg].
      cbn [name goal]. split; now apply orElse_nonempty.
    + exfalso. apply existsb_exists in Hknown.
      destruct Hknown as (d & Hd & Heq).
      now rewrite (find_none _ _ Hfind d Hd) in Heq.
Qed.

Lemma mergeProjects_shape_witness :
  hasProject DEFAULT_PROJECTS "side-project" = false
  /\ mergeOne {| id := "side-project"; name := ""; goal := "";
                 category := Sacred |}
     = {| id := "side-project"; name := ""; goal := ""; category := Sacred |}.
Proof.
  split; [reflexivity|].
  exact (proj1 (proj2 (proj2 (proj2 (mergeProjects_shape []))))
               {| id := "side-project"; name := ""; goal := "";
                  category := Sacred |} eq_refl).
Defined.

(** Merging is idempotent: a list that went through [mergeProjects], as the
    project list of the state has after the first load or an import, is
    left as it is by a second merge. *)
Theorem mergeProjects_idempotent (storedProjects : list Project) :
  mergeProjects (mergeProjects storedProjects) = mergeProjects storedProjects.
Proof.
  destruct (mergeProjects_prefix storedProjects) as (extra & Heq & Hincl).
  pose proof (mergeProjects_has_seed storedProjects) as Hall.
  rewrite (mergeProjects_unfold (mergeProjects storedProjects)).
  assert (map mergeOne (mergeProjects storedProjects)
          = mergeProjects storedProjects) as ->.
  { rewrite Heq at 1. rewrite map_app, map_map.
    rewrite (map_ext _ _ mergeOne_twice).
    rewrite (map_ext_in mergeOne (fun d => d) extra), map_id;
      [now rewrite Heq|].
    intros d Hd. apply mergeOne_default. now apply Hincl. }
  apply appendMissing_full. exact Hall.
Qed.

(** The project selected after the first load is always one of the
    loaded projects, whatever id the stored settings name. *)
Theorem resolvedProjectId_exists (rawProjects : list Project)
        (settingsProjectId : string) :
  hasProject (mergeProjects rawProjects)
             (resolvedProjectId (mergeProjects rawProjects) settingsProjectId)
  = true.
Proof.
  unfold resolvedProjectId.
  destruct (existsb (fun project => String.eqb (id project) settingsProjectId)
                    (mergeProjects rawProjects)) eqn:Hin; [exact Hin|].
  apply (mergeProjects_has_seed rawProjects {| id := "ark-engine"; name := "Ark Engine (Core)";
     goal := "The command center that tracks truth, progress, and decisions.";
     category := Commercial |}).
  now left.
Qed.

(** ** The seed projects are never lost *)

Lemma patch_keeps_entries {V W : Type} (patch : V -> W -> V)
      (l : JsObject.t W) (k : string) : forall acc : JsObject.t V,
  JsObject.get acc k <> None ->
  JsObject.get
    (fold_left (fun acc e =>
                  match JsObject.get acc (fst e) with
                  | Some s => JsObject.set acc (fst e) (patch s (snd e))
                  | None => acc
                  end)
               l acc) k <> None.
Proof.
  induction l as [|[k0 w0] rest IH]; intros acc Hk; [exact Hk|].
  cbn [fold_left fst snd]. apply IH.
  destruct (JsObject.get acc k0); [|exact Hk].
  destruct (String.eqb_spec k0 k) as [->|Hne].
  - rewrite get_set_same. discriminate.
  - now rewrite get_set_other.
Qed.

Lemma set_keeps_entries {V : Type} (o : JsObject.t V) k0 v k :
  JsObject.get o k <> None -> JsObject.get (JsObject.set o k0 v) k <> None.
Proof.
  intros Hk. destruct (String.eqb_spec k0 k) as [->|Hne].
  - rewrite get_set_same. discriminate.
  - now rewrite get_set_other.
Qed.

Lemma import_keeps_seed_entries d :
  In d DEFAULT_PROJECTS ->
  (forall imported,
      JsObject.get (importProjectState imported) (id d) <> None)
  /\ (forall statuses,
         JsObject.get (importProjectStatuses statuses) (id d) <> None)
  /\ (forall imported,
         JsObject.get (importProjectLedger imported) (id d) <> None).
Proof.
  intros Hd.
  assert (JsObject.get createDefaultProjectState (id d) <> None) as Hs
    by (rewrite (default_state_entry d Hd); discriminate).
  assert (JsObject.get createDefaultProjectLedger (id d) <> None) as Hl
    by (rewrite (proj1 (default_ledger_entry d Hd)); discriminate).
  split; [|split]; intros x.
  - exact (overlay_keeps_entries (fun (s : ProjectState) _ => s) x (id d)
                                 createDefaultProjectState Hs).
  - exact (patch_keeps_entries withStage x (id d)
                               createDefaultProjectState Hs).
  - exact (overlay_keeps_entries
             (fun (e : ProjectLedger) old =>
                withOneSentenceGoal e
                  (orElse (oneSentenceGoal e)
                          match old with
                          | Some d => oneSentenceGoal d
                          | None => ""
                          end))
             x (id d) createDefaultProjectLedger Hl).
Qed.

(** No edit and no import removes a seed project: if every seed project
    is listed and has its project-state and ledger entries, this is still
    so after any event of the engine and after any import, accepted or
    not. *)
Theorem seed_projects_kept (st : AppState) :
  SeedsPresent st ->
  (forall e : Event, SeedsPresent (step st e))
  /\ (forall parsed : ParseResult, SeedsPresent (fst (handleImport st parsed))).
Proof.
  intros Hst. split.
  - intros e d Hd. destruct (Hst d Hd) as (Hp & Hs & Hl).
    destruct e as [p | u now | u now | now]; cbn [step].
    + auto.
    + destruct (update_cases st u now) as [(a & ->) | ->]; cbn [fst]; [auto|].
      cbn [projects projectState projectLedger touchLedgerUpdate
           setProjectLedger setProjectState].
      split; [exact Hp|]. split; now apply set_keeps_entries.
    + cbn [handleUpdateProjectLedger fst projects projectState projectLedger
           setProjectLedger].
      split; [exact Hp|]. split; [exact Hs | now apply set_keeps_entries].
    + cbn [handleMarkWeeklyUpdate fst projects projectState projectLedger
           setProjectLedger].
      split; [exact Hp|]. split; [exact Hs | now apply set_keeps_entries].
  - intros parsed d Hd. destruct (Hst d Hd) as (Hp & Hs & Hl).
    destruct (import_keeps_seed_entries d Hd) as (Hi1 & Hi2 & Hi3).
    destruct parsed as [| | |data]; cbn [handleImport fst]; auto.
    destruct (notAnArray (x_tasks data)); cbn [fst]; auto.
    destruct (notAnArray (x_logs data)); cbn [fst]; auto.
    cbn [projects projectState projectLedger].
    split; [|split].
    + destruct (x_projects data) as [ps|]; [|exact Hp].
      now apply mergeProjects_has_seed.
    + destruct (x_projectState data), (x_projectStatuses data); auto.
    + destruct (x_projectLedger data); auto.
Qed.

Lemma seedState_seeds : SeedsPresent seedState.
Proof.
  intros d Hd. simpl in Hd.
  repeat (destruct Hd as [<-|Hd];
          [split; [reflexivity | split; discriminate]|]).
  contradiction.
Qed.

Lemma seed_projects_kept_witness :
  SeedsPresent seedState
  /\ SeedsPresent (fst (handleImport seedState (ParsedObject conflictImport))).
Proof.
  split; [exact seedState_seeds|].
  exact (proj2 (seed_projects_kept seedState seedState_seeds)
               (ParsedObject conflictImport)).
Defined.

(** The first load merges stored data as an import does: the stored
    project state is laid over the defaults, the legacy statuses are used
    only when no project state is stored, and the stored ledger is merged
    like an imported one. *)
Theorem first_load_merges_like_import
        (storedProjectState : JsObject.t ProjectState)
        (legacyStatuses : JsObject.t ProjectStateStatus)
        (storedProjectLedger : JsObject.t ProjectLedger) :
  loadProjectState storedProjectState legacyStatuses
  = match storedProjectState with
    | [] => importProjectStatuses legacyStatuses
    | _ :: _ => importProjectState storedProjectState
    end
  /\ loadProjectLedger storedProjectLedger
     = importProjectLedger storedProjectLedger.
Proof.
  split.
  - destruct storedProjectState, legacyStatuses; reflexivity.
  - destruct storedProjectLedger; reflexivity.
Qed.

(** ** Export and import *)

Lemma export_is_valid st now :
  notAnArray (x_tasks (handleExport st now)) = false
  /\ notAnArray (x_logs (handleExport st now)) = false.
Proof. split; reflexivity. Qed.

(** Importing an exported snapshot, into any state, restores the
    snapshot: tasks, logs, energy, work mode and milestones as they were;
    the selected project, the work-mode outputs and the outreach spec when
    they are not empty; the project list merged with the seed list; each
    project-state entry, and each ledger entry up to an empty goal, which
    comes back as the seed goal; projects without an entry come back with
    the default entry of the seed list, if any. The stored SignalCrypt
    batch is not part of the snapshot and stays that of the importing
    state. *)
Theorem export_import_round_trip (st st0 : AppState) (now : string) :
  let r := handleImport st0 (ParsedObject (handleExport st now)) in
  snd r = Some ALERT_IMPORTED
  /\ tasks (fst r) = tasks st /\ logs (fst r) = logs st
  /\ energy (fst r) = energy st /\ workMode (fst r) = workMode st
  /\ milestones (fst r) = milestones st
  /\ projects (fst r) = mergeProjects (projects st)
  /\ (selectedProjectId st <> "" ->
      selectedProjectId (fst r) = selectedProjectId st)
  /\ (truthy (workModeOutputs st) = true ->
      workModeOutputs (fst r) = workModeOutputs st)
  /\ (scOutreachSpec st <> "" -> scOutreachSpec (fst r) = scOutreachSpec st)
  /\ (JsObject.wf (projectState st) -> forall k,
      JsObject.get (projectState (fst r)) k
      = match JsObject.get (projectState st) k with
        | Some s => Some s
        | None => JsObject.get createDefaultProjectState k
        end)
  /\ (JsObject.wf (projectLedger st) -> forall k,
      JsObject.get (projectLedger (fst r)) k
      = match JsObject.get (projectLedger st) k with
        | Some e => Some (mergedLedgerEntry k e)
        | None => JsObject.get createDefaultProjectLedger k
        end)
  /\ scBatch (fst r) = scBatch st0 /\ storedBatch (fst r) = storedBatch st0.
Proof.
  cbv zeta. cbn [handleImport].
  destruct (export_is_valid st now) as [-> ->].
  cbn [fst snd tasks logs energy workMode milestones projects
       selectedProjectId workModeOutputs scOutreachSpec projectState
       projectLedger scBatch storedBatch handleExport
       x_tasks x_logs x_energy x_workMode x_milestones x_projects
       x_selectedProjectId x_workModeOutputs x_outreachAgentSpec
       x_projectState x_projectStatuses x_projectLedger
       arrayItems pickSome pickNonEmpty].
  repeat (split; [reflexivity|]).
  split; [|split; [|split; [|split; [|split]]]].
  - intros Hne. now destruct (String.eqb_spec (selectedProjectId st) "").
  - now intros ->.
  - intros Hne. now destruct (String.eqb_spec (scOutreachSpec st) "").
  - intros Hwf k. now apply importProjectState_get.
  - intros Hwf k. now apply importProjectLedger_get.
  - split; reflexivity.
Qed.

Lemma export_import_round_trip_witness :
  JsObject.wf (projectState arkBuildingState)
  /\ JsObject.get
       (projectState
          (fst (handleImport seedState
                  (ParsedObject (handleExport arkBuildingState
                                   "2026-01-06T08:00:00.000Z")))))
       "ark-engine"
     = JsObject.get (projectState arkBuildingState) "ark-engine".
Proof.
  assert (JsObject.wf (projectState arkBuildingState)) as Hwf.
  { apply (run_invariant _ seedState seedState_wf).
    unfold SingleBuilding. simpl. lia. }
  split; [exact Hwf|].
  pose proof (export_import_round_trip arkBuildingState seedState
                "2026-01-06T08:00:00.000Z") as H.
  cbv zeta in H.
  destruct H as (_ & _ & _ & _ & _ & _ & _ & _ & _ & _ & Hps & _).
  rewrite (Hps Hwf "ark-engine"). reflexivity.
Defined.

(** A goal that was cleared in the ledger does not survive the round
    trip. *)
Example cleared_goal_comes_back :
  let cleared := fst (handleUpdateProjectLedger seedState
                        (set_text f_oneSentenceGoal "")
                        "2026-01-05T09:00:00.000Z") in
  option_map oneSentenceGoal
             (JsObject.get (projectLedger cleared) "ark-engine") = Some ""
  /\ option_map oneSentenceGoal
       (JsObject.get
          (projectLedger
             (fst (handleImport cleared
                     (ParsedObject (handleExport cleared
                                      "2026-01-06T08:00:00.000Z")))))
          "ark-engine")
     = Some "The command center that tracks truth, progress, and decisions.".
Proof. split; reflexivity. Qed.

(** A document of the right shape replaces the tasks and the logs, and,
    of the rest, only what it carries: with the optional properties absent
    every other cell is left as it was; the legacy statuses are read only
    when the document has no project state; and the stored SignalCrypt
    batch, the loading flag and the error are never touched. *)
Theorem import_optional_properties (st : AppState) (data : ExportData) :
  validImportShape (ParsedObject data) = true ->
  let st' := fst (handleImport st (ParsedObject data)) in
  tasks st' = arrayItems (x_tasks data)
  /\ logs st' = arrayItems (x_logs data)
  /\ (x_energy data = None -> energy st' = energy st)
  /\ (x_selectedProjectId data = None ->
      selectedProjectId st' = selectedProjectId st)
  /\ (x_projects data = None -> projects st' = projects st)
  /\ (x_workMode data = None -> workMode st' = workMode st)
  /\ (x_workModeOutputs data = None ->
      workModeOutputs st' = workModeOutputs st)
  /\ (x_milestones data = None -> milestones st' = milestones st)
  /\ (x_projectLedger data = None -> projectLedger st' = projectLedger st)
  /\ (x_outreachAgentSpec data = None ->
      scOutreachSpec st' = scOutreachSpec st)
  /\ (x_projectState data = None -> x_projectStatuses data = None ->
      projectState st' = projectState st)
  /\ (forall imported, x_projectState data = Some imported ->
      projectState st' = importProjectState imported)
  /\ scBatch st' = scBatch st /\ storedBatch st' = storedBatch st
  /\ scLoading st' = scLoading st /\ scError st' = scError st.
Proof.
  intros Hv st'. subst st'. simpl in Hv. apply andb_prop in Hv.
  destruct Hv as [Ht Hl]. cbn [handleImport].
  rewrite !notAnArray_field, Ht, Hl. cbn [negb fst].
  cbn [tasks logs energy workMode milestones projects selectedProjectId
       workModeOutputs scOutreachSpec projectState projectLedger scBatch
       storedBatch scLoading scError].
  repeat split; try (now intros ->).
  - now intros -> ->.
  - now intros imported ->.
Qed.

Lemma import_optional_properties_witness :
  validImportShape
    (ParsedObject (handleExport arkBuildingState "2026-01-06T08:00:00.000Z"))
  = true
  /\ tasks (fst (handleImport seedState
                   (ParsedObject (handleExport arkBuildingState
                                    "2026-01-06T08:00:00.000Z"))))
     = [].
Proof.
  split; [reflexivity|].
  exact (proj1 (import_optional_properties seedState
                  (handleExport arkBuildingState "2026-01-06T08:00:00.000Z")
                  eq_refl)).
Defined.

(** ** SignalCrypt batches *)

Lemma setSc_frame st b s l e :
  projectState (setSc st b s l e) = projectState st
  /\ projectLedger (setSc st b s l e) = projectLedger st
  /\ isSignalCryptLocked (setSc st b s l e) = isSignalCryptLocked st.
Proof. repeat split. Qed.

Lemma fetchCatch_end st m now : FetchEnd st (fetchCatch st m now).
Proof.
  unfold fetchCatch.
  destruct (str_includes _ "404" || str_includes _ "Failed to fetch").
  - apply (fetch_stored _ _ (mockBatch now)); [reflexivity | now left].
  - now apply (fetch_failed _ _ (orElse match m with
                                        | Some m0 => m0
                                        | None => ""
                                        end "Failed to fetch batch")).
Qed.

Lemma normalizeApproval_status a :
  normalizeApproval a = PENDING_APPROVAL
  \/ status (normalizeApproval a) = "APPROVED".
Proof.
  destruct (normalizeApproval_cases a) as [(x & _ & _ & ->) | [_ ->]];
    [now right | now left].
Qed.

Lemma fetch_end st r now :
  isSignalCryptLocked st = false ->
  FetchEnd st (fetchSignalCryptBatch st r now).
Proof.
  intros Hopen. unfold fetchSignalCryptBatch. rewrite Hopen.
  destruct r as [m | http body]; [apply fetchCatch_end|].
  destruct (res_ok http); cbn [negb].
  - destruct body as [m | b]; [apply fetchCatch_end|].
    eapply fetch_stored; [reflexivity|]. apply normalizeApproval_status.
  - destruct (http =? 404)%Z; [|apply fetchCatch_end].
    apply (fetch_stored _ _ (mockBatch now)); [reflexivity | now left].
Qed.

(** A fetch changes nothing but the batch, its stored copy, the loading
    flag and the error. Locked out, it only reports the reason of the
    lock. Otherwise it always ends with the loading flag off, either with
    the batch untouched and an error reported, or with the error cleared
    and a batch written to state and storage alike whose approval is
    pending, with empty approver fields, or carries APPROVED; so a fetch
    never writes a rejected batch. *)
Theorem fetch_effects (st : AppState) (r : FetchResult) (now : string) :
  let st' := fetchSignalCryptBatch st r now in
  st' = setSc st (scBatch st') (storedBatch st') (scLoading st') (scError st')
  /\ (isSignalCryptLocked st = true ->
      st' = setSc st (scBatch st) (storedBatch st) (scLoading st)
                  (Some (signalCryptLockReason st)))
  /\ (isSignalCryptLocked st = false ->
      FetchEnd st st' /\ scLoading st' = false
      /\ (forall b, scBatch st' = Some b -> scBatch st' <> scBatch st ->
                    status (approval b) <> "REJECTED")).
Proof.
  intros st'. subst st'.
  destruct (isSignalCryptLocked st) eqn:Hlock.
  - unfold fetchSignalCryptBatch. rewrite Hlock.
    split; [reflexivity|]. split; [reflexivity | discriminate].
  - pose proof (fetch_end st r now Hlock) as Hend.
    split; [|split; [discriminate|]].
    + destruct Hend as [e -> | kept -> _]; reflexivity.
    + intros _. split; [exact Hend|].
      destruct Hend as [e -> | kept -> Hkept]; cbn [scLoading scBatch setSc].
      * split; [reflexivity|]. intros b _ Hdiff. now contradiction Hdiff.
      * split; [reflexivity|]. intros b [= <-] _.
        destruct Hkept as [-> | ->]; discriminate.
Qed.

Lemma fetch_effects_witness :
  isSignalCryptLocked seedState = true
  /\ isSignalCryptLocked rivalState = false
  /\ scError (fetchSignalCryptBatch seedState (FetchThrows None)
                                    "2026-01-05T09:00:00.000Z")
     = Some "Set a SignalCrypt confidence score before generating batches."
  /\ scLoading (fetchSignalCryptBatch rivalState (FetchThrows None)
                                      "2026-01-05T09:00:00.000Z") = false.
Proof.
  split; [reflexivity|]. split; [reflexivity|]. split.
  - rewrite (proj1 (proj2 (fetch_effects seedState (FetchThrows None)
                             "2026-01-05T09:00:00.000Z")) eq_refl).
    reflexivity.
  - exact (proj1 (proj2 (proj2 (proj2 (fetch_effects rivalState
                                         (FetchThrows None)
                                         "2026-01-05T09:00:00.000Z"))
                               eq_refl))).
Defined.

Lemma scStep_invariant st e :
  scBatch st = storedBatch st -> KnownStatus st ->
  scBatch (scStep st e) = storedBatch (scStep st e)
  /\ KnownStatus (scStep st e).
Proof.
  intros Hsame Hknown. unfold KnownStatus in *.
  destruct e as [r now | now | now]; cbn [scStep].
  - destruct (isSignalCryptLocked st) eqn:Hlock.
    + unfold fetchSignalCryptBatch. rewrite Hlock. now split.
    + destruct (fetch_end st r now Hlock) as [e -> | kept -> Hkept];
        cbn [scBatch storedBatch setSc]; [now split|].
      split; [reflexivity|]. destruct Hkept as [-> | ->]; auto.
  - unfold approveSignalCryptBatch, decideBatch.
    destruct (scBatch st) eqn:Hb; [|rewrite Hb; now split].
    cbn [scBatch storedBatch setSc approval status]. auto.
  - unfold rejectSignalCryptBatch, decideBatch.
    destruct (scBatch st) eqn:Hb; [|rewrite Hb; now split].
    cbn [scBatch storedBatch setSc approval status]. auto.
Qed.

(** Through any sequence of fetches, approvals and rejections the batch
    in the state stays the one in storage, and its approval status stays
    one of PENDING, APPROVED and REJECTED. *)
Theorem batch_matches_storage (st : AppState) (es : list ScEvent) :
  scBatch st = storedBatch st -> KnownStatus st ->
  scBatch (scRun st es) = storedBatch (scRun st es)
  /\ KnownStatus (scRun st es).
Proof.
  revert st. induction es as [|e es IH]; intros st Hsame Hknown;
    [now split|].
  cbn [scRun fold_left].
  destruct (scStep_invariant st e Hsame Hknown) as [Hsame' Hknown'].
  now apply IH.
Qed.

Lemma batch_matches_storage_witness :
  scBatch rivalState = storedBatch rivalState
  /\ KnownStatus rivalState
  /\ option_map (fun b => status (approval b))
       (storedBatch
          (scRun rivalState
                 [ScFetch (FetchResponse 404 (inl "")) "2026-01-05T09:00:00.000Z";
                  ScReject "2026-01-05T09:05:00.000Z";
                  ScApprove "2026-01-05T09:06:00.000Z"]))
     = Some "APPROVED".
Proof.
  split; [reflexivity|]. split; [exact I|].
  rewrite <- (proj1 (batch_matches_storage rivalState
                       [ScFetch (FetchResponse 404 (inl ""))
                                "2026-01-05T09:00:00.000Z";
                        ScReject "2026-01-05T09:05:00.000Z";
                        ScApprove "2026-01-05T09:06:00.000Z"]
                       eq_refl I)).
  reflexivity.
Defined.

(** Decisions on a batch: without a batch they do nothing; with one, they
    keep its content and the later decision replaces the earlier; and a
    local approval does not survive a successful refetch whose body does
    not itself carry APPROVED, which comes back pending. *)
Theorem batch_decisions_compose (st : AppState) (t1 t2 : string) :
  (scBatch st = None ->
   approveSignalCryptBatch st t1 = st /\ rejectSignalCryptBatch st t1 = st)
  /\ (forall b, scBatch st = Some b ->
        scBatch (approveSignalCryptBatch (rejectSignalCryptBatch st t1) t2)
        = Some (decided b "APPROVED" t2)
        /\ scBatch (rejectSignalCryptBatch (approveSignalCryptBatch st t1) t2)
           = Some (decided b "REJECTED" t2)
        /\ (forall http body,
              isSignalCryptLocked st = false -> res_ok http = true ->
              ~ carriesApproved body ->
              scBatch (fetchSignalCryptBatch (approveSignalCryptBatch st t1)
                         (FetchResponse http (inr body)) t2)
              = Some {| batch := r_batch body;
                        approval := PENDING_APPROVAL |})).
Proof.
  unfold approveSignalCryptBatch, rejectSignalCryptBatch, decideBatch.
  split.
  - intros ->. now split.
  - intros b Hb. rewrite Hb. cbn [scBatch setSc batch]. repeat split.
    intros http body Hopen Hok Hnot.
    unfold fetchSignalCryptBatch.
    rewrite (proj2 (proj2 (setSc_frame st _ _ _ _))), Hopen, Hok.
    cbn [negb scBatch setSc].
    destruct (normalizeApproval_cases (r_approval body))
      as [(x & Hx & Hs & _) | [_ ->]]; [|reflexivity].
    exfalso. apply Hnot. now exists x.
Qed.

Lemma batch_decisions_compose_witness :
  let st := fetchSignalCryptBatch rivalState (FetchResponse 404 (inl ""))
                                  "2026-01-05T09:00:00.000Z" in
  scBatch st = Some (mockBatch "2026-01-05T09:00:00.000Z")
  /\ isSignalCryptLocked st = false
  /\ ~ carriesApproved rejectedResponse
  /\ option_map approval
       (scBatch (fetchSignalCryptBatch
                   (approveSignalCryptBatch st "2026-01-05T09:05:00.000Z")
                   (FetchResponse 200 (inr rejectedResponse))
                   "2026-01-05T09:10:00.000Z"))
     = Some PENDING_APPROVAL.
Proof.
  assert (~ carriesApproved rejectedResponse) as Hnot.
  { intros (a & Ha & Hs). vm_compute in Ha. inversion Ha. subst a.
    discriminate Hs. }
  split; [reflexivity|]. split; [reflexivity|]. split; [exact Hnot|].
  rewrite (proj2 (proj2 (proj2 (batch_decisions_compose
             (fetchSignalCryptBatch rivalState (FetchResponse 404 (inl ""))
                                    "2026-01-05T09:00:00.000Z")
             "2026-01-05T09:05:00.000Z" "2026-01-05T09:10:00.000Z")
             (mockBatch "2026-01-05T09:00:00.000Z") eq_refl))
           200%Z rejectedResponse eq_refl eq_refl Hnot).
  reflexivity.
Defined.

(** ** The server side *)

Lemma draft_accepted msg key req batchId emails :
  acceptedDraft req batchId emails ->
  draftHandler msg key req
  = {| res_status := 200;
       res_json :=
         JObj [("ok", JBool true); ("mode", JStr "DRY_RUN");
               ("message", JStr msg); ("batchId", batchId);
               (key, JNum (Z.of_nat (List.length emails)))] |}.
Proof.
  intros (Hpost & fields & Hbody & Hid & Htrue & Hemails).
  unfold draftHandler. rewrite Hpost, Hbody.
  change (String.eqb "POST" "POST") with true.
  cbn [negb bodyOrEmpty property].
  rewrite Hid, Hemails. cbn [falsy isArrayField arrayItems undefinedAsNull].
  now rewrite Htrue.
Qed.

Lemma draft_status_cases msg key req :
  (req_method req <> "POST" /\ res_status (draftHandler msg key req) = 405%Z)
  \/ (req_method req = "POST"
      /\ res_status (draftHandler msg key req) = 400%Z
      /\ forall batchId emails, ~ acceptedDraft req batchId emails)
  \/ (exists batchId emails, acceptedDraft req batchId emails).
Proof.
  unfold draftHandler.
  destruct (String.eqb_spec (req_method req) "POST") as [Hpost|Hpost];
    cbn [negb]; [|left; now split].
  right.
  destruct (req_body req) as [v|] eqn:Hbody.
  - destruct v as [| flag | n | str | items | fields];
      try (left; cbn [bodyOrEmpty property lookupField falsy orb res_status];
           split; [exact Hpost|]; split; [reflexivity|];
           intros bid ems (_ & fs & Hb & _); congruence).
    cbn [bodyOrEmpty property].
    destruct (lookupField fields "batchId") as [bid|] eqn:Hid.
    + destruct (truthy bid) eqn:Htrue.
      * destruct (lookupField fields "emails") as [ev|] eqn:Hemails.
        -- destruct ev as [| flag | n | str | items | fs];
             try (left; cbn [falsy isArrayField negb orb res_status];
                  rewrite ?Htrue; cbn [negb orb res_status];
                  split; [exact Hpost|]; split; [reflexivity|];
                  intros bid' ems (_ & fs' & Hb & _ & _ & He);
                  congruence).
           right. exists bid, items. split; [exact Hpost|].
           now exists fields.
        -- left. cbn [falsy isArrayField negb orb res_status].
           rewrite Htrue. cbn [negb orb res_status].
           split; [exact Hpost|]. split; [reflexivity|].
           intros bid' ems (_ & fs' & Hb & _ & _ & He). congruence.
      * left. cbn [falsy]. rewrite Htrue. cbn [negb orb res_status].
        split; [exact Hpost|]. split; [reflexivity|].
        intros bid' ems (_ & fs' & Hb & Hi & Ht & _). congruence.
    + left. cbn [falsy orb res_status].
      split; [exact Hpost|]. split; [reflexivity|].
      intros bid' ems (_ & fs' & Hb & Hi & _). congruence.
  - left. cbn [bodyOrEmpty property lookupField falsy orb res_status].
    split; [exact Hpost|]. split; [reflexivity|].
    intros bid ems (_ & fs & Hb & _). congruence.
Qed.

(** The draft endpoint answers 405 to anything but a POST, 200 exactly to
    a POST whose body is an object with a truthy [batchId] and an
    [emails] array, and 400 otherwise (a missing, null or non-object body
    included). A 200 answer is a dry run that echoes the batch id and
    counts the emails. The three variants of the endpoint answer every
    request with the same status. *)
Theorem draft_endpoint_contract (req : HttpRequest) :
  (res_status (createDraftsHandler req) = 405%Z <-> req_method req <> "POST")
  /\ (res_status (createDraftsHandler req) = 200%Z
      <-> exists batchId emails, acceptedDraft req batchId emails)
  /\ (res_status (createDraftsHandler req) = 405%Z
      \/ res_status (createDraftsHandler req) = 400%Z
      \/ res_status (createDraftsHandler req) = 200%Z)
  /\ (forall batchId emails, acceptedDraft req batchId emails ->
        property (res_json (createDraftsHandler req)) "mode"
        = Some (JStr "DRY_RUN")
        /\ property (res_json (createDraftsHandler req)) "batchId"
           = Some batchId
        /\ property (res_json (createDraftsHandler req)) "draftsPrepared"
           = Some (JNum (Z.of_nat (List.length emails)))
        /\ property (res_json (createDraftsHandlerV2 req)) "count"
           = Some (JNum (Z.of_nat (List.length emails))))
  /\ res_status (createDraftsHandlerV1 req)
     = res_status (createDraftsHandler req)
  /\ res_status (createDraftsHandlerV2 req)
     = res_status (createDraftsHandler req).
Proof.
  unfold createDraftsHandler, createDraftsHandlerV1, createDraftsHandlerV2.
  set (msg := "Draft creation endpoint ready. No emails sent.").
  assert (forall m k, res_status (draftHandler m k req)
                      = res_status (draftHandler msg "draftsPrepared" req))
    as Hsame.
  { intros m k. unfold draftHandler.
    destruct (negb (String.eqb (req_method req) "POST")); [reflexivity|].
    now destruct (falsy _ || negb _). }
  assert (res_status (draftHandler msg "draftsPrepared" req) = 405%Z
          <-> req_method req <> "POST") as H405.
  { destruct (draft_status_cases msg "draftsPrepared" req)
      as [[Hm Hs] | [(Hm & Hs & _) | (bid & ems & Hacc)]].
    - rewrite Hs. tauto.
    - rewrite Hs. split; [discriminate | contradiction].
    - rewrite (draft_accepted _ _ _ _ _ Hacc). destruct Hacc as [Hm _].
      cbn [res_status]. split; [discriminate | contradiction]. }
  assert (res_status (draftHandler msg "draftsPrepared" req) = 200%Z
          <-> exists batchId emails, acceptedDraft req batchId emails)
    as H200.
  { split.
    - intros Hs.
      destruct (draft_status_cases msg "draftsPrepared" req)
        as [[_ Hs'] | [(_ & Hs' & _) | Hacc]]; [congruence.. | exact Hacc].
    - intros (bid & ems & Hacc). now rewrite (draft_accepted _ _ _ _ _ Hacc). }
  split; [exact H405|]. split; [exact H200|].
  split; [|split; [|split]].
  - destruct (draft_status_cases msg "draftsPrepared" req)
      as [[_ Hs] | [(_ & Hs & _) | (bid & ems & Hacc)]]; [tauto.. |].
    right. right. apply H200. now exists bid, ems.
  - intros bid ems Hacc.
    rewrite (draft_accepted msg "draftsPrepared" req bid ems Hacc).
    rewrite (draft_accepted _ "count" req bid ems Hacc).
    repeat split.
  - reflexivity.
  - apply Hsame.
Qed.

Lemma draft_endpoint_contract_witness :
  let req := {| req_method := "POST";
                req_body := Some (JObj [("batchId", JStr "SC-2026-01-05");
                                        ("emails", JArr [JStr "a"; JStr "b"])]) |} in
  acceptedDraft req (JStr "SC-2026-01-05") [JStr "a"; JStr "b"]
  /\ property (res_json (createDraftsHandler req)) "draftsPrepared"
     = Some (JNum 2).
Proof.
  assert (acceptedDraft
            {| req_method := "POST";
               req_body := Some (JObj [("batchId", JStr "SC-2026-01-05");
                                       ("emails", JArr [JStr "a"; JStr "b"])]) |}
            (JStr "SC-2026-01-05") [JStr "a"; JStr "b"]) as Hacc.
  { split; [reflexivity|]. eexists. repeat split. }
  split; [exact Hacc|].
  exact (proj1 (proj2 (proj2
           (proj1 (proj2 (proj2 (proj2 (draft_endpoint_contract _))))
                  _ _ Hacc)))).
Defined.

(** The batch template never fabricates contact data: whatever the count,
    there are that many targets, numbered from 1, all on the email
    channel with empty email, website and handle; and the client's
    fallback batch has the 15 targets of the template. *)
Theorem template_targets_blank (count : nat) :
  List.length (buildTemplateTargets count) = count
  /\ (forall t, In t (buildTemplateTargets count) ->
                t_email t = "" /\ t_website t = "" /\ t_dmHandle t = ""
                /\ t_channel t = "email")
  /\ (forall i, i < count ->
                option_map t_name (nth_error (buildTemplateTargets count) i)
                = Some ("Target " ++ string_of_nat (i + 1)))
  /\ (forall now, targets (batch (mockBatch now)) = buildTemplateTargets 15).
Proof.
  unfold buildTemplateTargets. split; [|split; [|split]].
  - now rewrite length_map, length_seq.
  - intros t Hin. apply in_map_iff in Hin. destruct Hin as (i & <- & _).
    repeat split.
  - intros i Hi. rewrite nth_error_map.
    rewrite nth_error_seq.
    apply Nat.ltb_lt in Hi. rewrite Hi. reflexivity.
  - reflexivity.
Qed.

Lemma template_targets_blank_witness :
  option_map t_name (nth_error (buildTemplateTargets 15) 9)
  = Some "Target 10".
Proof.
  rewrite (proj1 (proj2 (proj2 (template_targets_blank 15))) 9
                 ltac:(lia)).
  reflexivity.
Defined.

(** ** Tasks and milestones *)

Lemma sortInsert_In {A : Type} (compare : A -> A -> Z) x l y :
  In y (sortInsert compare x l) <-> y = x \/ In y l.
Proof.
  induction l as [|z rest IH]; simpl; [intuition|].
  destruct (compare z x <? 0)%Z; simpl; [rewrite IH|]; intuition.
Qed.

Lemma sort_In {A : Type} (compare : A -> A -> Z) l y :
  In y (sort compare l) <-> In y l.
Proof.
  induction l as [|x rest IH]; simpl; [tauto|].
  rewrite sortInsert_In, IH. intuition.
Qed.

Section SortFacts.
Context {A : Type} (key : A -> Z).

(** Descending by [key]: the comparator of the open-task list. *)
Let byKeyDesc (a b : A) : Z := (key b - key a)%Z.

Lemma sortInsert_sorted x l :
  StronglySorted (fun a b => (key b <= key a)%Z) l ->
  StronglySorted (fun a b => (key b <= key a)%Z) (sortInsert byKeyDesc x l).
Proof.
  induction l as [|z rest IH]; intros Hs; simpl.
  - repeat constructor.
  - inversion Hs as [|? ? Hrest Hall]; subst. unfold byKeyDesc at 1.
    destruct (key x - key z <? 0)%Z eqn:Hcmp.
    + apply Z.ltb_lt in Hcmp. constructor; [now apply IH|].
      apply Forall_forall. intros y Hy. apply sortInsert_In in Hy.
      destruct Hy as [->|Hy]; [lia|].
      rewrite Forall_forall in Hall. now apply Hall.
    + apply Z.ltb_ge in Hcmp. constructor; [exact Hs|].
      constructor; [lia|].
      rewrite Forall_forall in Hall. apply Forall_forall.
      intros y Hy. specialize (Hall y Hy). lia.
Qed.

Lemma sort_sorted l :
  StronglySorted (fun a b => (key b <= key a)%Z) (sort byKeyDesc l).
Proof.
  induction l as [|x rest IH]; simpl; [constructor|].
  now apply sortInsert_sorted.
Qed.

Lemma sorted_split (R : A -> A -> Prop) l1 : forall l2,
  StronglySorted R (l1 ++ l2) ->
  forall a b, In a l1 -> In b l2 -> R a b.
Proof.
  induction l1 as [|x rest IH]; intros l2 Hs a b Ha Hb; [contradiction|].
  simpl in Hs. inversion Hs as [|? ? Hrest Hall]; subst.
  destruct Ha as [<-|Ha].
  - rewrite Forall_forall in Hall. apply Hall. apply in_or_app. now right.
  - now apply (IH l2).
Qed.

End SortFacts.

Lemma filter_filter_and {A : Type} (f g : A -> bool) l :
  filter f (filter g l) = filter (fun x => g x && f x) l.
Proof.
  induction l as [|x rest IH]; simpl; [reflexivity|].
  destruct (g x); simpl; [destruct (f x)|]; now rewrite IH.
Qed.

Lemma unique_by_id {A : Type} (f : A -> string) l a b :
  NoDup (map f l) -> In a l -> In b l -> f a = f b -> a = b.
Proof.
  induction l as [|x rest IH]; simpl; [contradiction|].
  intros Hnd Ha Hb Hf. inversion Hnd as [|? ? Hnin Hrest]; subst.
  destruct Ha as [<-|Ha], Hb as [<-|Hb]; try reflexivity.
  - exfalso. apply Hnin. rewrite Hf. now apply in_map.
  - exfalso. apply Hnin. rewrite <- Hf. now apply in_map.
  - now apply IH.
Qed.

Lemma includes_In l x : includes l x = true <-> In x l.
Proof.
  unfold includes. rewrite existsb_exists. split.
  - intros (y & Hy & Heq). apply String.eqb_eq in Heq. now subst.
  - intros Hin. exists x. split; [exact Hin | apply String.eqb_refl].
Qed.

Lemma openTasks_In st ts t :
  In t (openTasks st ts)
  <-> In t ts /\ task_projectId t = selectedProjectId st
      /\ completed t = false.
Proof.
  unfold openTasks, currentProjectTasks.
  rewrite sort_In, !filter_In, String.eqb_eq, negb_true_iff. tauto.
Qed.

Lemma top3_In st ts t : In t (top3Tasks st ts) -> In t (openTasks st ts).
Proof.
  unfold top3Tasks. intros Hin.
  rewrite <- (firstn_skipn 3 (openTasks st ts)). apply in_or_app. now left.
Qed.

Example focus_mode_on_sample :
  map task_id (top3Tasks seedState sampleTasks) = ["b"; "e"; "f"]
  /\ map task_id (handleFocusMode seedState sampleTasks) = ["b"; "d"; "e"; "f"]
  /\ map task_id (handleClearCompleted seedState sampleTasks)
     = ["a"; "b"; "d"; "e"; "f"].
Proof. repeat split; reflexivity. Qed.

Lemma focus_keeps_iff st ts t :
  isProjectPaused st = false -> NoDup (map task_id ts) ->
  (In t (handleFocusMode st ts)
   <-> In t ts /\ (task_projectId t <> selectedProjectId st
                   \/ In t (top3Tasks st ts))).
Proof.
  intros Hrun Hnd. unfold handleFocusMode. rewrite Hrun, filter_In.
  split.
  - intros [Hin Hkeep]. split; [exact Hin|].
    destruct (String.eqb_spec (task_projectId t) (selectedProjectId st))
      as [Hp|Hp]; [right | now left].
    cbn [negb] in Hkeep.
    destruct (completed t) eqn:Hc; cbn [negb] in Hkeep; [discriminate|].
    apply includes_In, in_map_iff in Hkeep.
    destruct Hkeep as (t' & Hid & Ht').
    assert (In t' ts) as Hin'
      by (apply top3_In, openTasks_In in Ht'; tauto).
    now rewrite <- (unique_by_id task_id ts t' t Hnd Hin' Hin Hid).
  - intros [Hin [Hp | Htop]]; split; try exact Hin.
    + now destruct (String.eqb_spec (task_projectId t) (selectedProjectId st)).
    + pose proof (top3_In _ _ _ Htop) as Hopen.
      apply openTasks_In in Hopen. destruct Hopen as (_ & Hp & Hc).
      rewrite Hp, String.eqb_refl, Hc. cbn [negb].
      apply includes_In. now apply in_map.
Qed.

(** Focus mode, on tasks with distinct ids, keeps the tasks of the other
    projects and, of the selected project, exactly its top three open
    tasks: at most three tasks remain, none of them completed, and every
    open task that was dropped is no younger than every task kept. *)
Theorem focus_mode_keeps_top3 (st : AppState) (ts : list Task) :
  isProjectPaused st = false -> NoDup (map task_id ts) ->
  (forall t, In t (handleFocusMode st ts)
             <-> In t ts /\ (task_projectId t <> selectedProjectId st
                             \/ In t (top3Tasks st ts)))
  /\ List.length (currentProjectTasks st (handleFocusMode st ts)) <= 3
  /\ (forall t, In t (currentProjectTasks st (handleFocusMode st ts)) ->
                completed t = false)
  /\ (forall t u,
        In t (currentProjectTasks st (handleFocusMode st ts)) ->
        In u (openTasks st ts) -> ~ In u (handleFocusMode st ts) ->
        (task_createdAt u <= task_createdAt t)%Z).
Proof.
  intros Hrun Hnd.
  pose proof (fun t => focus_keeps_iff st ts t Hrun Hnd) as Hiff.
  assert (forall t, In t (currentProjectTasks st (handleFocusMode st ts)) ->
                    In t (top3Tasks st ts)) as Htop.
  { intros t Ht. unfold currentProjectTasks in Ht. apply filter_In in Ht.
    destruct Ht as [Hin Hp]. apply String.eqb_eq in Hp.
    apply Hiff in Hin. tauto. }
  split; [exact Hiff|]. split; [|split].
  - apply Nat.le_trans with (List.length (top3Tasks st ts)).
    + apply NoDup_incl_length; [|exact Htop].
      unfold currentProjectTasks, handleFocusMode. rewrite Hrun.
      apply NoDup_filter, NoDup_filter. now apply NoDup_map_inv in Hnd.
    + unfold top3Tasks. apply firstn_le_length.
  - intros t Ht. apply Htop, top3_In, openTasks_In in Ht. tauto.
  - intros t u Ht Hu Hgone. apply Htop in Ht.
    assert (In u (skipn 3 (openTasks st ts))) as Hskip.
    { rewrite <- (firstn_skipn 3 (openTasks st ts)) in Hu.
      apply in_app_or in Hu. destruct Hu as [Hu|Hu]; [|exact Hu].
      exfalso. apply Hgone. apply Hiff. split; [|now right].
      apply top3_In, openTasks_In in Hu. tauto. }
    pose proof (sort_sorted task_createdAt
                  (filter (fun t => negb (completed t))
                          (currentProjectTasks st ts))) as Hsorted.
    fold (openTasks st ts) in Hsorted.
    rewrite <- (firstn_skipn 3 (openTasks st ts)) in Hsorted.
    exact (sorted_split _ _ _ Hsorted t u Ht Hskip).
Qed.

Lemma focus_mode_keeps_top3_witness :
  isProjectPaused seedState = false
  /\ NoDup (map task_id sampleTasks)
  /\ List.length (currentProjectTasks seedState
                    (handleFocusMode seedState sampleTasks)) <= 3.
Proof.
  assert (NoDup (map task_id sampleTasks)) as Hnd.
  { repeat (constructor; [simpl; intuition discriminate|]). constructor. }
  split; [reflexivity|]. split; [exact Hnd|].
  exact (proj1 (proj2 (focus_mode_keeps_top3 seedState sampleTasks
                         eq_refl Hnd))).
Defined.

(** Duplicate ids defeat focus mode: four open tasks sharing one id all
    stay. *)
Example focus_mode_needs_distinct_ids :
  let ts := [sampleTask "x" "ark-engine" false 1;
             sampleTask "x" "ark-engine" false 2;
             sampleTask "x" "ark-engine" false 3;
             sampleTask "x" "ark-engine" false 4] in
  List.length (handleFocusMode seedState ts) = 4.
Proof. reflexivity. Qed.

Lemma clear_keeps_open st ts :
  filter (fun t => negb (completed t))
         (currentProjectTasks st
            (filter (fun t => negb (String.eqb (task_projectId t)
                                               (selectedProjectId st)
                                    && completed t)) ts))
  = filter (fun t => negb (completed t)) (currentProjectTasks st ts).
Proof.
  unfold currentProjectTasks. rewrite !filter_filter_and.
  apply filter_ext. intros t.
  destruct (String.eqb (task_projectId t) (selectedProjectId st)),
    (completed t); reflexivity.
Qed.

(** Clearing the completed tasks removes exactly the completed tasks of
    the selected project, leaves the top three open tasks as they are,
    and is idempotent; focus mode does that clearing too, so focusing
    after clearing, or clearing after focusing, is focusing. *)
Theorem clear_completed_composes (st : AppState) (ts : list Task) :
  (isProjectPaused st = false ->
   forall t, In t (handleClearCompleted st ts)
             <-> In t ts /\ ~ (task_projectId t = selectedProjectId st
                               /\ completed t = true))
  /\ top3Tasks st (handleClearCompleted st ts) = top3Tasks st ts
  /\ handleClearCompleted st (handleClearCompleted st ts)
     = handleClearCompleted st ts
  /\ handleFocusMode st (handleClearCompleted st ts) = handleFocusMode st ts
  /\ handleClearCompleted st (handleFocusMode st ts) = handleFocusMode st ts.
Proof.
  assert (top3Tasks st (handleClearCompleted st ts) = top3Tasks st ts)
    as Htop.
  { unfold handleClearCompleted.
    destruct (isProjectPaused st); [reflexivity|].
    unfold top3Tasks, openTasks. now rewrite clear_keeps_open. }
  split; [|split; [exact Htop|split; [|split]]].
  - intros Hrun t. unfold handleClearCompleted. rewrite Hrun, filter_In.
    rewrite negb_true_iff, andb_false_iff, String.eqb_neq.
    destruct (completed t); intuition congruence.
  - unfold handleClearCompleted.
    destruct (isProjectPaused st); [reflexivity|].
    rewrite filter_filter_and. apply filter_ext. intros t.
    now destruct (negb _).
  - unfold handleFocusMode at 1. rewrite Htop. unfold handleFocusMode.
    unfold handleClearCompleted.
    destruct (isProjectPaused st); [reflexivity|].
    rewrite filter_filter_and. apply filter_ext. intros t.
    destruct (String.eqb (task_projectId t) (selectedProjectId st)),
      (completed t); reflexivity.
  - unfold handleClearCompleted, handleFocusMode.
    destruct (isProjectPaused st); [reflexivity|].
    rewrite filter_filter_and. apply filter_ext. intros t.
    destruct (String.eqb (task_projectId t) (selectedProjectId st)),
      (completed t); cbn [negb andb]; try reflexivity.
    now rewrite andb_true_r.
Qed.

Lemma clear_completed_composes_witness :
  isProjectPaused seedState = false
  /\ ~ In (sampleTask "c" "ark-engine" true 50)
          (handleClearCompleted seedState sampleTasks).
Proof.
  split; [reflexivity|].
  intros Hin.
  apply (proj1 (clear_completed_composes seedState sampleTasks) eq_refl)
    in Hin.
  destruct Hin as [_ Hnot]. apply Hnot. split; reflexivity.
Defined.

Lemma withCompleted_twice t :
  withCompleted (withCompleted t (negb (completed t)))
                (negb (completed (withCompleted t (negb (completed t)))))
  = t.
Proof. destruct t as [k p x c n a]. simpl. now rewrite negb_involutive. Qed.

Lemma withDone_twice m :
  withDone (withDone m (negb (done m)))
           (negb (done (withDone m (negb (done m))))) = m.
Proof. destruct m as [k p x d a]. simpl. now rewrite negb_involutive. Qed.

(** Toggling a task, or a milestone, twice gives back the list as it was,
    and a toggle never changes which ids the list holds, nor their
    order. *)
Theorem toggle_twice (st : AppState) (ts : list Task) (ms : list Milestone)
        (k : string) :
  handleToggleTask st (handleToggleTask st ts k) k = ts
  /\ map task_id (handleToggleTask st ts k) = map task_id ts
  /\ handleToggleMilestone st (handleToggleMilestone st ms k) k = ms
  /\ map milestone_id (handleToggleMilestone st ms k) = map milestone_id ms.
Proof.
  unfold handleToggleTask, handleToggleMilestone.
  destruct (isProjectPaused st); [repeat split|].
  split; [|split; [|split]].
  - rewrite map_map. rewrite <- (map_id ts) at 2. apply map_ext. intros t.
    destruct (String.eqb (task_id t) k) eqn:Hk.
    + cbn [task_id withCompleted]. rewrite Hk. apply withCompleted_twice.
    + now rewrite Hk.
  - rewrite map_map. apply map_ext. intros t.
    now destruct (String.eqb (task_id t) k).
  - rewrite map_map. rewrite <- (map_id ms) at 2. apply map_ext. intros m.
    destruct (String.eqb (milestone_id m) k) eqn:Hk.
    + cbn [milestone_id withDone]. rewrite Hk. apply withDone_twice.
    + now rewrite Hk.
  - rewrite map_map. apply map_ext. intros m.
    now destruct (String.eqb (milestone_id m) k).
Qed.

(** While the selected project is paused no task or milestone handler
    changes anything; the stage select still works, so the project can be
    moved back to Planning. *)
Theorem paused_blocks_task_edits (st : AppState) (ts : list Task)
        (ms : list Milestone) (k now : string) :
  isProjectPaused st = true ->
  handleToggleTask st ts k = ts /\ handleDeleteTask st ts k = ts
  /\ handleClearCompleted st ts = ts /\ handleFocusMode st ts = ts
  /\ handleToggleMilestone st ms k = ms /\ handleDeleteMilestone st ms k = ms
  /\ isProjectPaused (fst (handleUpdateProjectState st (set_stage Planning) now))
     = false.
Proof.
  intros Hp.
  unfold handleToggleTask, handleDeleteTask, handleClearCompleted,
    handleFocusMode, handleToggleMilestone, handleDeleteMilestone.
  rewrite Hp. repeat (split; [reflexivity|]).
  destruct (accepted_effect st (set_stage Planning) now) as [Hget _].
  cbv zeta in Hget. unfold isProjectPaused, currentProjectState.
  unfold handleUpdateProjectState. cbn [ProjectStateStatus_eqb orb andb fst].
  change (selectedProjectId
            (touchLedgerUpdate st now
               (setProjectState st
                  (JsObject.set (projectState st) (selectedProjectId st)
                     (assignStateField (currentProjectState st)
                                       (set_stage Planning))))))
    with (selectedProjectId st).
  now rewrite Hget.
Qed.

Lemma paused_blocks_task_edits_witness :
  isProjectPaused pausedState = true
  /\ handleFocusMode pausedState sampleTasks = sampleTasks.
Proof.
  split; [reflexivity|].
  exact (proj1 (proj2 (proj2 (proj2
           (paused_blocks_task_edits pausedState sampleTasks [] "a"
              "2026-01-05T09:00:00.000Z" eq_refl))))).
Defined.
